(** * fbpcs: hook-governed configuration entity, Terraform command builder,
      PID protocol helpers

    Shallow embedding of
    - [fbpcs/private_computation/entity/infra_config.py]
    - [fbpcs/infra/pce_deployment_library/deploy_library/terraform_library/terraform_deployment_utils.py]
    - [fbpcs/pid/service/pid_service/utils.py]

    Python [int] is [Z]; [str] is [string] (one character per code point
    below 256); an attribute that an object does not carry yet is [None] in
    the object's attribute store; a raised exception is the [Raise] branch of
    [result]; the wall clock is an explicit argument [now]. *)

From Stdlib Require Import Ascii.
From stdpp Require Import base option strings list gmap pretty sorting.

Local Open Scope Z_scope.

(** * Part I. Definitions *)

(** ** Python string primitives *)

Module py.

(** [str.replace(old, new)] for one-character [old] and [new]. *)
Fixpoint replace (old new : ascii) (s : string) : string :=
  match s with
  | EmptyString => EmptyString
  | String c s' =>
      String (if Ascii.eqb c old then new else c) (replace old new s')
  end.

(** [sub in s] on strings. *)
Fixpoint contains (sub s : string) : bool :=
  String.prefix sub s ||
  match s with
  | EmptyString => false
  | String _ s' => contains sub s'
  end.

(** Characters for which [str.isspace] holds, among code points below 256:
    tab, line feed, vertical tab, form feed, carriage return, the four
    separators 0x1c-0x1f, space, next line (0x85) and no-break space. *)
Definition isspace (c : ascii) : bool :=
  let n := nat_of_ascii c in
  ((9 <=? n) && (n <=? 13) || (28 <=? n) && (n <=? 32)
   || (n =? 133) || (n =? 160))%nat.

(** [s.split()] with no separator: the maximal runs of non-space
    characters, in order. [cur] is the run read so far. *)
Fixpoint split_go (cur : string) (s : string) : list string :=
  let flush (rest : list string) :=
    match cur with
    | EmptyString => rest
    | _ => cur :: rest
    end in
  match s with
  | EmptyString => flush []
  | String c s' =>
      if isspace c then flush (split_go EmptyString s')
      else split_go (cur +:+ String c EmptyString) s'
  end.

Definition split (s : string) : list string := split_go EmptyString s.

End py.

(** ** infra_config.py *)

Module infra_config.

(** The types this module imports from files that are not among those
    embedded here: the status enum, the instance union, the feature enum
    (kept in a [set], hence countable) and the PCE configuration. *)
Class EntityTypes := {
  PrivateComputationInstanceStatus : Type;
  UnionedPCInstance : Type;
  PCSFeature : Type;
  PCEConfig : Type;
  PCSFeature_eq_dec :: EqDecision PCSFeature;
  PCSFeature_countable :: Countable PCSFeature;
}.

Inductive PrivateComputationRole := PUBLISHER | PARTNER.

Inductive PrivateComputationGameType := LIFT | ATTRIBUTION.

Section entity.
Context {types : EntityTypes}.

Record StatusUpdate := {
  su_status : PrivateComputationInstanceStatus;
  su_status_update_ts : Z;
}.

(** The instance attributes of an [InfraConfig] object, in declaration
    order. [None] means that the attribute has not been assigned yet
    ([hasattr] is false); a fully constructed object carries all of them.
    [tier] and [pce_config] are [Optional], so their value is itself an
    option. *)
Record InfraConfig := {
  instance_id : option string;
  role : option PrivateComputationRole;
  status : option PrivateComputationInstanceStatus;
  status_update_ts : option Z;
  instances : option (list UnionedPCInstance);
  game_type : option PrivateComputationGameType;
  num_pid_containers : option Z;
  num_mpc_containers : option Z;
  num_files_per_mpc_container : option Z;
  status_updates : option (list StatusUpdate);
  tier : option (option string);
  pcs_features : option (gset PCSFeature);
  pce_config : option (option PCEConfig);
  _stage_flow_cls_name : option string;
  retry_counter : option Z;
  creation_ts : option Z;
  end_ts : option Z;
  mpc_compute_concurrency : option Z;
}.

Inductive FieldName :=
| f_instance_id | f_role | f_status | f_status_update_ts | f_instances
| f_game_type | f_num_pid_containers | f_num_mpc_containers
| f_num_files_per_mpc_container | f_status_updates | f_tier
| f_pcs_features | f_pce_config | f_stage_flow_cls_name
| f_retry_counter | f_creation_ts | f_end_ts | f_mpc_compute_concurrency.

(** The dataclass fields in declaration order. *)
Definition fields : list FieldName :=
  [ f_instance_id; f_role; f_status; f_status_update_ts; f_instances;
    f_game_type; f_num_pid_containers; f_num_mpc_containers;
    f_num_files_per_mpc_container; f_status_updates; f_tier;
    f_pcs_features; f_pce_config; f_stage_flow_cls_name;
    f_retry_counter; f_creation_ts; f_end_ts; f_mpc_compute_concurrency ].

(** An attribute assignment [obj.f = v], with the value typed as the
    field is annotated. *)
Inductive Assignment :=
| set_instance_id (v : string)
| set_role (v : PrivateComputationRole)
| set_status (v : PrivateComputationInstanceStatus)
| set_status_update_ts (v : Z)
| set_instances (v : list UnionedPCInstance)
| set_game_type (v : PrivateComputationGameType)
| set_num_pid_containers (v : Z)
| set_num_mpc_containers (v : Z)
| set_num_files_per_mpc_container (v : Z)
| set_status_updates (v : list StatusUpdate)
| set_tier (v : option string)
| set_pcs_features (v : gset PCSFeature)
| set_pce_config (v : option PCEConfig)
| set_stage_flow_cls_name (v : string)
| set_retry_counter (v : Z)
| set_creation_ts (v : Z)
| set_end_ts (v : Z)
| set_mpc_compute_concurrency (v : Z).

Definition field_of (a : Assignment) : FieldName :=
  match a with
  | set_instance_id _ => f_instance_id
  | set_role _ => f_role
  | set_status _ => f_status
  | set_status_update_ts _ => f_status_update_ts
  | set_instances _ => f_instances
  | set_game_type _ => f_game_type
  | set_num_pid_containers _ => f_num_pid_containers
  | set_num_mpc_containers _ => f_num_mpc_containers
  | set_num_files_per_mpc_container _ => f_num_files_per_mpc_container
  | set_status_updates _ => f_status_updates
  | set_tier _ => f_tier
  | set_pcs_features _ => f_pcs_features
  | set_pce_config _ => f_pce_config
  | set_stage_flow_cls_name _ => f_stage_flow_cls_name
  | set_retry_counter _ => f_retry_counter
  | set_creation_ts _ => f_creation_ts
  | set_end_ts _ => f_end_ts
  | set_mpc_compute_concurrency _ => f_mpc_compute_concurrency
  end.

Definition is_set {A} (o : option A) : bool :=
  match o with Some _ => true | None => false end.

(** [hasattr(obj, f)] on the instance attributes. *)
Definition hasattr (obj : InfraConfig) (f : FieldName) : bool :=
  match f with
  | f_instance_id => is_set (instance_id obj)
  | f_role => is_set (role obj)
  | f_status => is_set (status obj)
  | f_status_update_ts => is_set (status_update_ts obj)
  | f_instances => is_set (instances obj)
  | f_game_type => is_set (game_type obj)
  | f_num_pid_containers => is_set (num_pid_containers obj)
  | f_num_mpc_containers => is_set (num_mpc_containers obj)
  | f_num_files_per_mpc_container =>
      is_set (num_files_per_mpc_container obj)
  | f_status_updates => is_set (status_updates obj)
  | f_tier => is_set (tier obj)
  | f_pcs_features => is_set (pcs_features obj)
  | f_pce_config => is_set (pce_config obj)
  | f_stage_flow_cls_name => is_set (_stage_flow_cls_name obj)
  | f_retry_counter => is_set (retry_counter obj)
  | f_creation_ts => is_set (creation_ts obj)
  | f_end_ts => is_set (end_ts obj)
  | f_mpc_compute_concurrency => is_set (mpc_compute_concurrency obj)
  end.

(** The plain attribute write (what [object.__setattr__] does): the
    named attribute takes the value, every other attribute is kept. *)
Definition setattr (a : Assignment) (obj : InfraConfig) : InfraConfig :=
  let '(Build_InfraConfig x1 x2 x3 x4 x5 x6 x7 x8 x9 x10 x11 x12 x13 x14
          x15 x16 x17 x18) := obj in
  match a with
  | set_instance_id v =>
      Build_InfraConfig (Some v) x2 x3 x4 x5 x6 x7 x8 x9 x10 x11 x12 x13
        x14 x15 x16 x17 x18
  | set_role v =>
      Build_InfraConfig x1 (Some v) x3 x4 x5 x6 x7 x8 x9 x10 x11 x12 x13
        x14 x15 x16 x17 x18
  | set_status v =>
      Build_InfraConfig x1 x2 (Some v) x4 x5 x6 x7 x8 x9 x10 x11 x12 x13
        x14 x15 x16 x17 x18
  | set_status_update_ts v =>
      Build_InfraConfig x1 x2 x3 (Some v) x5 x6 x7 x8 x9 x10 x11 x12 x13
        x14 x15 x16 x17 x18
  | set_instances v =>
      Build_InfraConfig x1 x2 x3 x4 (Some v) x6 x7 x8 x9 x10 x11 x12 x13
        x14 x15 x16 x17 x18
  | set_game_type v =>
      Build_InfraConfig x1 x2 x3 x4 x5 (Some v) x7 x8 x9 x10 x11 x12 x13
        x14 x15 x16 x17 x18
  | set_num_pid_containers v =>
      Build_InfraConfig x1 x2 x3 x4 x5 x6 (Some v) x8 x9 x10 x11 x12 x13
        x14 x15 x16 x17 x18
  | set_num_mpc_containers v =>
      Build_InfraConfig x1 x2 x3 x4 x5 x6 x7 (Some v) x9 x10 x11 x12 x13
        x14 x15 x16 x17 x18
  | set_num_files_per_mpc_container v =>
      Build_InfraConfig x1 x2 x3 x4 x5 x6 x7 x8 (Some v) x10 x11 x12 x13
        x14 x15 x16 x17 x18
  | set_status_updates v =>
      Build_InfraConfig x1 x2 x3 x4 x5 x6 x7 x8 x9 (Some v) x11 x12 x13
        x14 x15 x16 x17 x18
  | set_tier v =>
      Build_InfraConfig x1 x2 x3 x4 x5 x6 x7 x8 x9 x10 (Some v) x12 x13
        x14 x15 x16 x17 x18
  | set_pcs_features v =>
      Build_InfraConfig x1 x2 x3 x4 x5 x6 x7 x8 x9 x10 x11 (Some v) x13
        x14 x15 x16 x17 x18
  | set_pce_config v =>
      Build_InfraConfig x1 x2 x3 x4 x5 x6 x7 x8 x9 x10 x11 x12 (Some v)
        x14 x15 x16 x17 x18
  | set_stage_flow_cls_name v =>
      Build_InfraConfig x1 x2 x3 x4 x5 x6 x7 x8 x9 x10 x11 x12 x13
        (Some v) x15 x16 x17 x18
  | set_retry_counter v =>
      Build_InfraConfig x1 x2 x3 x4 x5 x6 x7 x8 x9 x10 x11 x12 x13 x14
        (Some v) x16 x17 x18
  | set_creation_ts v =>
      Build_InfraConfig x1 x2 x3 x4 x5 x6 x7 x8 x9 x10 x11 x12 x13 x14
        x15 (Some v) x17 x18
  | set_end_ts v =>
      Build_InfraConfig x1 x2 x3 x4 x5 x6 x7 x8 x9 x10 x11 x12 x13 x14
        x15 x16 (Some v) x18
  | set_mpc_compute_concurrency v =>
      Build_InfraConfig x1 x2 x3 x4 x5 x6 x7 x8 x9 x10 x11 x12 x13 x14
        x15 x16 x17 (Some v)
  end.

(** An object before [__init__] has assigned anything. *)
Definition uninitialized : InfraConfig :=
  Build_InfraConfig None None None None None None None None None None
    None None None None None None None None.

Inductive Exception :=
| ValueError (msg : string)
| AttributeError (name : string)
| ImmutableFieldViolation (a : Assignment).

(** A call either returns or raises. *)
Inductive result (A : Type) :=
| Ok (a : A)
| Raise (e : Exception).

Global Arguments Ok {_} _.
Global Arguments Raise {_} _.

Definition bind {A B} (m : result A) (k : A -> result B) : result B :=
  match m with
  | Ok a => k a
  | Raise e => Raise e
  end.

(** Reading an attribute: [obj.name] raises [AttributeError] when the
    attribute has not been assigned. *)
Definition getattr {A} (name : string) (o : option A) : result A :=
  match o with
  | Some v => Ok v
  | None => Raise (AttributeError name)
  end.

(** *** The hook framework

    [fbpcs.common.entity] ([dataclasses_hooks], [dataclasses_mutability],
    [generic_hook], [update_generic_hook]) is imported by
    [infra_config.py] but is not among the files embedded here. *)

(** Modelled from the spec: the trigger kinds of
    [fbpcs.common.entity.dataclasses_hooks.HookEventType], of which the
    specification (section 3) names POST_INIT and POST_UPDATE. *)
Inductive HookEventType := POST_INIT | POST_UPDATE.

Definition HookEventType_eqb (a b : HookEventType) : bool :=
  match a, b with
  | POST_INIT, POST_INIT | POST_UPDATE, POST_UPDATE => true
  | _, _ => false
  end.

(** Modelled from the spec: a hook (section 3) has a set of triggers, a
    read-only condition over the entity and an action that completes,
    mutates the entity or fails. The action receives the clock reading
    of the call that runs it. *)
Record DataclassHook := {
  triggers : list HookEventType;
  condition : InfraConfig -> bool;
  action : Z -> InfraConfig -> result InfraConfig;
}.

(** Modelled from the spec: [generic_hook.GenericHook], built from a
    hook function, the triggers and a hook condition. *)
Definition GenericHook (hook_function : InfraConfig -> result InfraConfig)
    (triggers : list HookEventType)
    (hook_condition : InfraConfig -> bool) : DataclassHook :=
  {| triggers := triggers;
     condition := hook_condition;
     action := fun _ => hook_function |}.

(** Modelled from the spec: [update_generic_hook.UpdateGenericHook],
    built from the triggers and an update function; its condition is
    absent, which section 3 reads as "always true". *)
Definition UpdateGenericHook (triggers : list HookEventType)
    (update_function : Z -> InfraConfig -> result InfraConfig)
    : DataclassHook :=
  {| triggers := triggers;
     condition := fun _ => true;
     action := update_function |}.

(** Modelled from the spec: one hook fires on an event when the event is
    among its triggers and its condition holds on the current state
    (section 4.3); otherwise the entity is left as it is. *)
Definition run_hook (event : HookEventType) (now : Z) (h : DataclassHook)
    (obj : InfraConfig) : result InfraConfig :=
  if existsb (HookEventType_eqb event) (triggers h) && condition h obj
  then action h now obj
  else Ok obj.

(** Modelled from the spec: hooks run in order; the first failure stops
    the dispatch and is propagated (sections 4.3 and 7). *)
Fixpoint run_hooks (event : HookEventType) (now : Z)
    (hs : list DataclassHook) (obj : InfraConfig) : result InfraConfig :=
  match hs with
  | [] => Ok obj
  | h :: hs' => bind (run_hook event now h obj) (run_hooks event now hs')
  end.

(** *** The hooks of [infra_config.py] *)

(** [append_status_updates]: builds the pair from the current [status]
    and [status_update_ts] and appends it to the list that
    [status_updates] refers to. *)
Definition append_status_updates (obj : InfraConfig)
    : result InfraConfig :=
  bind (getattr "status" (status obj)) (fun s =>
  bind (getattr "status_update_ts" (status_update_ts obj)) (fun ts =>
  let pair := {| su_status := s; su_status_update_ts := ts |} in
  bind (getattr "status_updates" (status_updates obj)) (fun l =>
  Ok (setattr (set_status_updates (l ++ [pair])) obj)))).

(** [post_update_status]: [now] is the value of
    [int(datetime.now(tz=timezone.utc).timestamp())] at the call.
    [status_update_ts] is declared without hooks and mutable, so the
    assignment is a plain attribute write. *)
Definition post_update_status (now : Z) (obj : InfraConfig)
    : result InfraConfig :=
  let obj := setattr (set_status_update_ts now) obj in
  append_status_updates obj.

Definition post_status_hook : DataclassHook :=
  UpdateGenericHook [POST_UPDATE] post_update_status.

Definition containers_error_message (pid mpc : Z) : string :=
  "num_pid_containers must be less than or equal to num_mpc_containers. Received num_pid_containers = "
  +:+ pretty pid +:+ " and num_mpc_containers = " +:+ pretty mpc.

(** [raise_containers_error]: always raises; the message formats both
    attributes, read in this order. *)
Definition raise_containers_error (obj : InfraConfig)
    : result InfraConfig :=
  bind (getattr "num_pid_containers" (num_pid_containers obj)) (fun pid =>
  bind (getattr "num_mpc_containers" (num_mpc_containers obj)) (fun mpc =>
  Raise (ValueError (containers_error_message pid mpc)))).

Definition not_valid_containers (obj : InfraConfig) : bool :=
  if hasattr obj f_num_pid_containers && hasattr obj f_num_mpc_containers
  then
    match num_pid_containers obj, num_mpc_containers obj with
    | Some pid, Some mpc => pid >? mpc
    | _, _ => false
    end
  else
    (* one or both not initialized yet *)
    false.

Definition num_pid_mpc_containers_hook : DataclassHook :=
  GenericHook raise_containers_error [POST_INIT; POST_UPDATE]
    not_valid_containers.

(** *** The field declarations of [InfraConfig] *)

(** Modelled from the spec: the two mutability classes of section 3
    ([dataclasses_mutability] is not among the files embedded here). *)
Inductive MutabilityMetadata := MUTABLE | IMMUTABLE_AFTER_INIT.

(** The fields declared with [immutable_field(...)]. *)
Definition mutability (f : FieldName) : MutabilityMetadata :=
  match f with
  | f_instance_id | f_game_type | f_tier | f_creation_ts =>
      IMMUTABLE_AFTER_INIT
  | _ => MUTABLE
  end.

(** The hooks bound by [field(metadata=DataclassHookMixin.get_metadata(..))]. *)
Definition hooks (f : FieldName) : list DataclassHook :=
  match f with
  | f_status => [post_status_hook]
  | f_num_pid_containers | f_num_mpc_containers =>
      [num_pid_mpc_containers_hook]
  | _ => []
  end.

(** The arguments of [InfraConfig(...)]: the fields without a default are
    required; for the others [None] means that the caller omitted the
    argument. *)
Record InitArgs := {
  init_instance_id : string;
  init_role : PrivateComputationRole;
  init_status : PrivateComputationInstanceStatus;
  init_status_update_ts : Z;
  init_instances : list UnionedPCInstance;
  init_game_type : PrivateComputationGameType;
  init_num_pid_containers : Z;
  init_num_mpc_containers : Z;
  init_num_files_per_mpc_container : Z;
  init_status_updates : list StatusUpdate;
  init_tier : option (option string);
  init_pcs_features : option (gset PCSFeature);
  init_pce_config : option (option PCEConfig);
  init_stage_flow_cls_name : option string;
  init_retry_counter : option Z;
  init_creation_ts : option Z;
  init_end_ts : option Z;
  init_mpc_compute_concurrency : option Z;
}.

(** The assignments of the generated [__init__], in declaration order,
    with the declared defaults; [now] is the value of [int(time.time())]
    that the default factory of [creation_ts] reads. *)
Definition init_assignments (now : Z) (args : InitArgs)
    : list Assignment :=
  [ set_instance_id (init_instance_id args);
    set_role (init_role args);
    set_status (init_status args);
    set_status_update_ts (init_status_update_ts args);
    set_instances (init_instances args);
    set_game_type (init_game_type args);
    set_num_pid_containers (init_num_pid_containers args);
    set_num_mpc_containers (init_num_mpc_containers args);
    set_num_files_per_mpc_container
      (init_num_files_per_mpc_container args);
    set_status_updates (init_status_updates args);
    set_tier (default None (init_tier args));
    set_pcs_features (default ∅ (init_pcs_features args));
    set_pce_config (default None (init_pce_config args));
    set_stage_flow_cls_name
      (default "PrivateComputationStageFlow"
         (init_stage_flow_cls_name args));
    set_retry_counter (default 0 (init_retry_counter args));
    set_creation_ts (default now (init_creation_ts args));
    set_end_ts (default 0 (init_end_ts args));
    set_mpc_compute_concurrency
      (default 1 (init_mpc_compute_concurrency args)) ].

(** *** Mutability enforcement and lifecycle dispatch *)

(** Modelled from the spec: [assertWritable] of section 4.2
    ([DataclassMutabilityMixin] is not among the files embedded here). A
    write to a field marked IMMUTABLE_AFTER_INIT that already holds a
    value fails, naming the field and the attempted value; a field
    without a prior value is writable whatever its class. *)
Definition assertWritable (obj : InfraConfig) (a : Assignment)
    : result unit :=
  match mutability (field_of a) with
  | IMMUTABLE_AFTER_INIT =>
      if hasattr obj (field_of a) then Raise (ImmutableFieldViolation a)
      else Ok tt
  | MUTABLE => Ok tt
  end.

(** Modelled from the spec: a write in state CONSTRUCTING (section 4.3):
    the mutability check and the plain write, no POST_UPDATE hook. *)
Definition init_assign (obj : InfraConfig) (a : Assignment)
    : result InfraConfig :=
  bind (assertWritable obj a) (fun _ => Ok (setattr a obj)).

(** Modelled from the spec: the writes of state CONSTRUCTING in order; a
    failing write ends the construction. *)
Fixpoint init_assign_all (obj : InfraConfig) (l : list Assignment)
    : result InfraConfig :=
  match l with
  | [] => Ok obj
  | a :: l' => bind (init_assign obj a) (fun obj' => init_assign_all obj' l')
  end.

(** Modelled from the spec: construction (sections 4.3 and 6, the
    [__post_init__] of the mixins is not among the files embedded here).
    All values are assigned, then the POST_INIT hooks of every field run
    in declaration order; the first violation makes construction fail
    and no entity is returned. *)
Definition construct (now : Z) (args : InitArgs) : result InfraConfig :=
  bind (init_assign_all uninitialized (init_assignments now args))
    (run_hooks POST_INIT now (flat_map hooks fields)).

(** Modelled from the spec: the field update of state READY (section
    4.3, the [__setattr__] of the mixins is not among the files embedded
    here): (1) mutability check, (2) the write, (3) the POST_UPDATE
    hooks of the field against the post-write state. When a hook
    rejects the write the prior state is restored, the choice that
    section 4.3 recommends and that the scenarios of section 8 require.
    The result is the outcome reported to the caller and the entity
    after the call. *)
Definition set_field (now : Z) (a : Assignment) (obj : InfraConfig)
    : result unit * InfraConfig :=
  match assertWritable obj a with
  | Raise e => (Raise e, obj)
  | Ok _ =>
      match run_hooks POST_UPDATE now (hooks (field_of a))
              (setattr a obj) with
      | Ok obj' => (Ok tt, obj')
      | Raise e => (Raise e, obj)
      end
  end.

(** Modelled from the spec: the entities in state READY (section 4.3) are
    those returned by a construction, and those a READY entity becomes
    by a field update; there is no other state to go to. *)
Inductive READY : InfraConfig -> Prop :=
| READY_construct now args obj :
    construct now args = Ok obj -> READY obj
| READY_set_field now a obj :
    READY obj -> READY (set_field now a obj).2.

(** A run of status updates: each element is the status written and the
    clock reading during that write. Returns the outcomes and the
    entity after the last write. *)
Fixpoint set_status_all (writes : list (PrivateComputationInstanceStatus * Z))
    (obj : InfraConfig) : list (result unit) * InfraConfig :=
  match writes with
  | [] => ([], obj)
  | (s, now) :: writes' =>
      let '(r, obj1) := set_field now (set_status s) obj in
      let '(rs, obj2) := set_status_all writes' obj1 in
      (r :: rs, obj2)
  end.

(** All attributes are present. *)
Definition initialized (obj : InfraConfig) : bool :=
  forallb (hasattr obj) fields.

End entity.
End infra_config.

(** ** terraform_deployment_utils.py *)

Module terraform_deployment_utils.

(** The values an option can take: [None], a [bool], an [int], a [str], a
    [list] or a [dict] (items in insertion order). *)
#[local] Unset Elimination Schemes.
Inductive Value :=
| VNone
| VBool (b : bool)
| VInt (n : Z)
| VStr (s : string)
| VList (l : list Value)
| VDict (d : list (Value * Value)).
#[local] Set Elimination Schemes.

(** A [dict] with [str] keys, as the items in insertion order. *)
Definition Dict := list (string * Value).

(** [d[k] = v]: an existing key keeps its position and takes the new
    value, a new key goes last. *)
Fixpoint dict_set (k : string) (v : Value) (d : Dict) : Dict :=
  match d with
  | [] => [(k, v)]
  | (k', v') :: d' =>
      if String.eqb k' k then (k, v) :: d' else (k', v') :: dict_set k v d'
  end.

(** [d.pop(k, None)]: the item of key [k] is removed when there is one. *)
Fixpoint dict_pop (k : string) (d : Dict) : Dict :=
  match d with
  | [] => []
  | (k', v') :: d' =>
      if String.eqb k' k then d' else (k', v') :: dict_pop k d'
  end.

(** The items of a dict display [{...}] or of unpacking [**d], written
    into [d] from left to right. *)
Definition dict_update (d : Dict) (items : list (string * Value)) : Dict :=
  fold_left (fun acc '(k, v) => dict_set k v acc) items d.

Definition dict_keys (d : Dict) : list string := d.*1.

(** The constants this module imports from
    [fbpcs.infra.pce_deployment_library.deploy_library.models], which is
    not among the files embedded here: the members of [TerraformCliOptions]
    used as option names, and the denylist. *)
Class Models := {
  state : string;
  target : string;
  var : string;
  var_file : string;
  parallelism : string;
  terraform_input : string;
  NOT_SUPPORTED_INIT_DEFAULT_OPTIONS : list string;
}.

Record TerraformDeploymentUtils := {
  self_state_file_path : option string;
  self_resource_targets : list string;
  self_terraform_variables : list (string * string);
  self_parallelism : Z;
  self_var_definition_file : option string;
  self_input : bool;
}.

Definition TERRAFORM_DEFAULT_PARALLELISM : Z := 10.

(** [__init__]: [None] for an argument is the caller's omission or an
    explicit [None]. *)
Definition __init__ (state_file_path : option string)
    (terraform_variables : option (list (string * string)))
    (parallelism : option Z) (resource_targets : option (list string))
    (var_definition_file : option string) : TerraformDeploymentUtils :=
  {| self_state_file_path := state_file_path;
     self_resource_targets := default [] resource_targets;
     self_terraform_variables := default [] terraform_variables;
     self_parallelism := default TERRAFORM_DEFAULT_PARALLELISM parallelism;
     self_var_definition_file := var_definition_file;
     self_input := false |}.

Definition of_optional_str (o : option string) : Value :=
  match o with
  | Some s => VStr s
  | None => VNone
  end.

Section builder.
(** [str()] of a list or of a dict, which renders the elements with
    [repr]; left open. *)
Variable container_str : Value -> string.

(** What an f-string field [{v}] renders. *)
Definition str (v : Value) : string :=
  match v with
  | VNone => "None"
  | VBool true => "True"
  | VBool false => "False"
  | VInt n => pretty n
  | VStr s => s
  | VList _ | VDict _ => container_str v
  end.

(** The body of the loop over [kwargs.items()]. *)
Definition add_option (commands_list : list string)
    (item : string * Value) : list string :=
  let '(key, value) := item in
  (* terraform CLI accepts options with "-" using "_" will results in error *)
  let key := py.replace "_" "-" key in
  match value with
  | VList l =>
      fold_left
        (fun acc inner_value =>
           acc ++ ["-" +:+ key +:+ "=" +:+ str inner_value])
        l commands_list
  | VDict d =>
      if py.contains "backend-config" key then
        commands_list
          ++ map (fun '(k, v) =>
                    "-backend-config " +:+ str k +:+ "=" +:+ str v) d
      else commands_list
  | VBool b =>
      let value := if b then "true" else "false" in
      commands_list ++ ["-" +:+ key +:+ "=" +:+ value]
  | VNone => commands_list
  | VInt _ | VStr _ =>
      commands_list ++ ["-" +:+ key +:+ "=" +:+ str value]
  end.

Definition get_command_list (command : string) (args : list string)
    (kwargs : list (string * Value)) : list string :=
  let commands_list := py.split command in
  let commands_list := fold_left add_option kwargs commands_list in
  (* Add args to commands list *)
  commands_list ++ args.

End builder.

Section defaults.
Context {models : Models}.

Definition get_default_options (self : TerraformDeploymentUtils)
    (terraform_command : string) (input_options : Dict) : Dict :=
  let return_dict :=
    dict_update []
      ([ (state, of_optional_str (self_state_file_path self));
         (target, VList (VStr <$> self_resource_targets self));
         (var,
           VDict ((fun '(k, v) => (VStr k, VStr v))
                    <$> self_terraform_variables self));
         (var_file, of_optional_str (self_var_definition_file self));
         (parallelism, VInt (self_parallelism self));
         (terraform_input, VBool (self_input self)) ]
       ++ input_options) in
  if String.eqb terraform_command "init" then
    fold_left (fun d default_option => dict_pop default_option d)
      NOT_SUPPORTED_INIT_DEFAULT_OPTIONS return_dict
  else return_dict.

End defaults.
End terraform_deployment_utils.

(** ** pid_service/utils.py *)

Module pid_utils.

(** What this module imports from files that are not among those embedded
    here: the [PIDProtocol] enum with its member [UNION_PID_MULTIKEY],
    and two constants. Enum members are compared by identity, which
    decides equality. *)
Class Models := {
  PIDProtocol : Type;
  PIDProtocol_eq_dec :: EqDecision PIDProtocol;
  UNION_PID_MULTIKEY : PIDProtocol;
  DEFAULT_PID_PROTOCOL : PIDProtocol;
  DEFAULT_MULTIKEY_PROTOCOL_MAX_COLUMN_COUNT : Z;
}.

Section utils.
Context {models : Models}.

Definition get_max_id_column_cnt (pid_protocol : PIDProtocol) : Z :=
  if bool_decide (pid_protocol = UNION_PID_MULTIKEY)
  then DEFAULT_MULTIKEY_PROTOCOL_MAX_COLUMN_COUNT
  else 1.

Definition get_pid_protocol_from_num_shards (num_pid_containers : Z)
    (multikey_enabled : bool) : PIDProtocol :=
  if (num_pid_containers =? 1) && multikey_enabled
  then UNION_PID_MULTIKEY
  else DEFAULT_PID_PROTOCOL.

Definition pid_should_use_row_numbers (pid_use_row_numbers : bool)
    (pid_protocol : PIDProtocol) : bool :=
  if pid_use_row_numbers
     && negb (bool_decide (pid_protocol = UNION_PID_MULTIKEY))
  then true
  else false.

End utils.
End pid_utils.

(** ** product_config.py *)

Module product_config.

(** [str.lower()] on code points below 256: the letters A-Z and the
    Latin-1 capitals 0xC0-0xDE (the multiplication sign 0xD7 apart) move up
    by 32. *)
Definition lower_char (c : ascii) : ascii :=
  let n := nat_of_ascii c in
  if ((65 <=? n) && (n <=? 90)
      || (192 <=? n) && (n <=? 222) && negb (n =? 215))%nat
  then ascii_of_nat (n + 32)
  else c.

Fixpoint lower (s : string) : string :=
  match s with
  | EmptyString => EmptyString
  | String c s' => String (lower_char c) (lower s')
  end.

(** [class AttributionRule(Enum)], members in definition order. *)
Inductive AttributionRule :=
| LAST_CLICK_1D
| LAST_CLICK_7D
| LAST_CLICK_28D
| LAST_TOUCH_1D
| LAST_TOUCH_7D
| LAST_TOUCH_28D
| LAST_CLICK_2_7D
| LAST_TOUCH_2_7D
| LAST_CLICK_1D_TARGETID.

Definition AttributionRule_members : list AttributionRule :=
  [ LAST_CLICK_1D; LAST_CLICK_7D; LAST_CLICK_28D; LAST_TOUCH_1D;
    LAST_TOUCH_7D; LAST_TOUCH_28D; LAST_CLICK_2_7D; LAST_TOUCH_2_7D;
    LAST_CLICK_1D_TARGETID ].

(** [member.name] *)
Definition AttributionRule_name (r : AttributionRule) : string :=
  match r with
  | LAST_CLICK_1D => "LAST_CLICK_1D"
  | LAST_CLICK_7D => "LAST_CLICK_7D"
  | LAST_CLICK_28D => "LAST_CLICK_28D"
  | LAST_TOUCH_1D => "LAST_TOUCH_1D"
  | LAST_TOUCH_7D => "LAST_TOUCH_7D"
  | LAST_TOUCH_28D => "LAST_TOUCH_28D"
  | LAST_CLICK_2_7D => "LAST_CLICK_2_7D"
  | LAST_TOUCH_2_7D => "LAST_TOUCH_2_7D"
  | LAST_CLICK_1D_TARGETID => "LAST_CLICK_1D_TARGETID"
  end.

(** [member.value] *)
Definition AttributionRule_value (r : AttributionRule) : string :=
  match r with
  | LAST_CLICK_1D => "last_click_1d"
  | LAST_CLICK_7D => "last_click_7d"
  | LAST_CLICK_28D => "last_click_28d"
  | LAST_TOUCH_1D => "last_touch_1d"
  | LAST_TOUCH_7D => "last_touch_7d"
  | LAST_TOUCH_28D => "last_touch_28d"
  | LAST_CLICK_2_7D => "last_click_2_7d"
  | LAST_TOUCH_2_7D => "last_touch_2_7d"
  | LAST_CLICK_1D_TARGETID => "last_click_1d_targetid"
  end.

(** [AttributionRule(value)]: the first member, in definition order, that
    carries the value; [None] stands for the [ValueError] of a value that no
    member carries. *)
Definition AttributionRule_of_value (value : string)
    : option AttributionRule :=
  find (fun r => String.eqb (AttributionRule_value r) value)
    AttributionRule_members.

End product_config.

(** An instance of the imported types for closed examples: every imported
    type is represented by the name of its member or object. *)
Definition example_types : infra_config.EntityTypes :=
  {| infra_config.PrivateComputationInstanceStatus := string;
     infra_config.UnionedPCInstance := string;
     infra_config.PCSFeature := string;
     infra_config.PCEConfig := string |}.

(** Constructor arguments with the given container counts and history, and
    every optional argument omitted. *)
Definition example_args (num_pid num_mpc : Z)
    (history : list (@infra_config.StatusUpdate example_types))
    : @infra_config.InitArgs example_types :=
  @infra_config.Build_InitArgs example_types
    "instance_1" (* instance_id *)
    infra_config.PUBLISHER (* role *)
    "CREATED" (* status *)
    0 (* status_update_ts *)
    [] (* instances *)
    infra_config.LIFT (* game_type *)
    num_pid num_mpc
    4 (* num_files_per_mpc_container *)
    history
    None None None None None None None None.

(** The entity that a construction at clock reading 100 returns for these
    arguments when it succeeds. *)
Definition example_entity (num_pid num_mpc : Z)
    (history : list (@infra_config.StatusUpdate example_types))
    : @infra_config.InfraConfig example_types :=
  fold_left (fun obj a => infra_config.setattr a obj)
    (infra_config.init_assignments 100 (example_args num_pid num_mpc history))
    infra_config.uninitialized.

(** A history whose timestamps decrease, as a caller may pass it. *)
Definition example_history : list (@infra_config.StatusUpdate example_types) :=
  [ @infra_config.Build_StatusUpdate example_types "CREATED" 10;
    @infra_config.Build_StatusUpdate example_types "STARTED" 5 ].

(** A history whose timestamps do not decrease. *)
Definition example_history_in_order
    : list (@infra_config.StatusUpdate example_types) :=
  [ @infra_config.Build_StatusUpdate example_types "CREATED" 1;
    @infra_config.Build_StatusUpdate example_types "STARTED" 5 ].

(** Status updates with the clock reading of each: one update, two updates
    in step with the clock, and two updates across a clock that was set
    back. *)
Definition example_update
    : list (@infra_config.PrivateComputationInstanceStatus example_types * Z) :=
  [("RUNNING" : string, 3)].

Definition example_updates
    : list (@infra_config.PrivateComputationInstanceStatus example_types * Z) :=
  [("RUNNING" : string, 7); ("DONE" : string, 9)].

Definition example_updates_clock_set_back
    : list (@infra_config.PrivateComputationInstanceStatus example_types * Z) :=
  [("RUNNING" : string, 7); ("DONE" : string, 3)].

(** A rendering of containers for closed examples. *)
Definition example_container_str (v : terraform_deployment_utils.Value)
    : string := "<container>".

(** Option names and a denylist for closed examples. *)
Definition example_models : terraform_deployment_utils.Models :=
  {| terraform_deployment_utils.state := "state";
     terraform_deployment_utils.target := "target";
     terraform_deployment_utils.var := "var";
     terraform_deployment_utils.var_file := "var_file";
     terraform_deployment_utils.parallelism := "parallelism";
     terraform_deployment_utils.terraform_input := "input";
     terraform_deployment_utils.NOT_SUPPORTED_INIT_DEFAULT_OPTIONS :=
       ["state"; "target"; "var"; "var_file"; "parallelism"] |}.

(** A protocol enum and constants for closed examples. *)
Inductive ExampleProtocol := EX_UNION_PID | EX_PS3I | EX_UNION_PID_MULTIKEY.

#[local] Instance ExampleProtocol_eq_dec : EqDecision ExampleProtocol.
Proof. solve_decision. Defined.

Definition example_pid_models : pid_utils.Models :=
  {| pid_utils.PIDProtocol := ExampleProtocol;
     pid_utils.UNION_PID_MULTIKEY := EX_UNION_PID_MULTIKEY;
     pid_utils.DEFAULT_PID_PROTOCOL := EX_UNION_PID;
     pid_utils.DEFAULT_MULTIKEY_PROTOCOL_MAX_COLUMN_COUNT := 6 |}.

(** * Part II. Properties *)

Section infra_config_properties.
Import infra_config.
Context {types : EntityTypes}.

(** ** The container-count hook *)

Lemma not_valid_containers_spec obj :
  not_valid_containers obj =
    match num_pid_containers obj, num_mpc_containers obj with
    | Some pid, Some mpc => pid >? mpc
    | _, _ => false
    end.
Proof.
  unfold not_valid_containers; cbn.
  destruct (num_pid_containers obj), (num_mpc_containers obj); reflexivity.
Qed.

Lemma run_containers_hook event now obj :
  run_hook event now num_pid_mpc_containers_hook obj =
    match num_pid_containers obj, num_mpc_containers obj with
    | Some pid, Some mpc =>
        if pid >? mpc
        then Raise (ValueError (containers_error_message pid mpc))
        else Ok obj
    | _, _ => Ok obj
    end.
Proof.
  unfold run_hook, num_pid_mpc_containers_hook, GenericHook.
  cbn [triggers condition action].
  replace (existsb (HookEventType_eqb event) [POST_INIT; POST_UPDATE])
    with true by (destruct event; reflexivity).
  rewrite not_valid_containers_spec. unfold raise_containers_error.
  destruct (num_pid_containers obj) as [pid|],
           (num_mpc_containers obj) as [mpc|]; reflexivity.
Qed.

Lemma run_status_hook_post_init now obj :
  run_hook POST_INIT now post_status_hook obj = Ok obj.
Proof. reflexivity. Qed.

(** C5: the condition of the container-count hook holds exactly when both
    counts are present and [num_pid_containers > num_mpc_containers]; the
    hook then raises the error naming both values, on either trigger; when
    one of the two attributes is missing the condition is false and the
    hook leaves the entity alone. *)
Theorem not_valid_containers_iff obj :
  (condition num_pid_mpc_containers_hook obj = true <->
     exists pid mpc,
       num_pid_containers obj = Some pid /\
       num_mpc_containers obj = Some mpc /\ pid > mpc) /\
  (forall pid mpc event now,
     num_pid_containers obj = Some pid ->
     num_mpc_containers obj = Some mpc -> pid > mpc ->
     raise_containers_error obj
       = Raise (ValueError (containers_error_message pid mpc)) /\
     run_hook event now num_pid_mpc_containers_hook obj
       = Raise (ValueError (containers_error_message pid mpc))) /\
  (hasattr obj f_num_pid_containers = false \/
   hasattr obj f_num_mpc_containers = false ->
     not_valid_containers obj = false /\
     forall event now,
       run_hook event now num_pid_mpc_containers_hook obj = Ok obj).
Proof.
  split; [|split].
  - cbn [num_pid_mpc_containers_hook GenericHook condition].
    rewrite not_valid_containers_spec.
    destruct (num_pid_containers obj) as [pid|],
             (num_mpc_containers obj) as [mpc|]; split;
      try discriminate; try (intros (? & ? & ? & ? & ?); discriminate).
    + intros Hgt. exists pid, mpc. repeat split. lia.
    + intros (p & m & [= <-] & [= <-] & Hgt). lia.
  - intros pid mpc event now Hp Hm Hgt.
    rewrite run_containers_hook. unfold raise_containers_error.
    rewrite Hp, Hm. cbn.
    replace (pid >? mpc) with true by lia. done.
  - intros Hmiss. rewrite not_valid_containers_spec. split.
    + cbn in Hmiss.
      destruct (num_pid_containers obj), (num_mpc_containers obj);
        cbn in Hmiss; try reflexivity. destruct Hmiss; discriminate.
    + intros event now. rewrite run_containers_hook. cbn in Hmiss.
      destruct (num_pid_containers obj), (num_mpc_containers obj);
        cbn in Hmiss; try reflexivity. destruct Hmiss; discriminate.
Qed.

(** ** Construction *)

Lemma init_assign_all_ok now args :
  init_assign_all uninitialized (init_assignments now args)
    = Ok (fold_left (fun obj a => setattr a obj)
            (init_assignments now args) uninitialized).
Proof. reflexivity. Qed.

Lemma construct_spec now args :
  construct now args =
    if init_num_pid_containers args >? init_num_mpc_containers args
    then Raise (ValueError (containers_error_message
                              (init_num_pid_containers args)
                              (init_num_mpc_containers args)))
    else Ok (fold_left (fun obj a => setattr a obj)
               (init_assignments now args) uninitialized).
Proof.
  unfold construct. rewrite init_assign_all_ok. cbn [bind].
  change (flat_map hooks fields)
    with [post_status_hook; num_pid_mpc_containers_hook;
          num_pid_mpc_containers_hook].
  cbn [run_hooks]. rewrite run_status_hook_post_init. cbn [bind].
  rewrite run_containers_hook.
  cbn [fold_left init_assignments setattr uninitialized
       num_pid_containers num_mpc_containers].
  destruct (_ >? _) eqn:E; [reflexivity|]. cbn [bind].
  rewrite run_containers_hook.
  cbn [fold_left init_assignments setattr uninitialized
       num_pid_containers num_mpc_containers].
  rewrite E. reflexivity.
Qed.

(** The message determines both counts: the decimal form of an integer
    holds no space, so the two numbers can be read back from the text. *)
Lemma append_cons c s x : String c s +:+ x = String c (s +:+ x).
Proof. reflexivity. Qed.

Lemma append_inv_head s : forall x y, s +:+ x = s +:+ y -> x = y.
Proof.
  induction s as [|c s IH]; intros x y Heq; [exact Heq|].
  rewrite !append_cons in Heq. injection Heq as Heq. by apply IH.
Qed.

Lemma pretty_N_go_no_space x : forall s,
  Forall (fun c => c ≠ " "%char) (String.list_ascii_of_string s) ->
  Forall (fun c => c ≠ " "%char)
    (String.list_ascii_of_string (pretty_N_go x s)).
Proof.
  induction (N.lt_wf_0 x) as [x _ IH]; intros s Hs.
  assert (x = 0 \/ 0 < x)%N as [->|Hpos] by lia.
  - by rewrite pretty_N_go_0.
  - rewrite pretty_N_go_step by done. apply IH; [by apply N.div_lt|].
    cbn. constructor; [|exact Hs].
    unfold pretty_N_char. by repeat case_match.
Qed.

Lemma pretty_Z_no_space (x : Z) :
  Forall (fun c => c ≠ " "%char) (String.list_ascii_of_string (pretty x)).
Proof.
  assert (Hpos : forall p : positive,
            Forall (fun c => c ≠ " "%char)
              (String.list_ascii_of_string (pretty p))).
  { intros p. unfold pretty, pretty_positive, pretty, pretty_N.
    case_decide; [by repeat constructor|].
    apply pretty_N_go_no_space. constructor. }
  destruct x as [|p|p]; unfold pretty, pretty_Z.
  - by repeat constructor.
  - apply Hpos.
  - rewrite append_cons. cbn. constructor; [done|apply Hpos].
Qed.

Lemma no_space_split a : forall a' r r',
  Forall (fun c => c ≠ " "%char) (String.list_ascii_of_string a) ->
  Forall (fun c => c ≠ " "%char) (String.list_ascii_of_string a') ->
  a +:+ String " " r = a' +:+ String " " r' -> a = a' /\ r = r'.
Proof.
  induction a as [|c a IH]; intros [|c' a'] r r' Ha Ha' Heq.
  - by injection Heq as ->.
  - rewrite append_cons in Heq. injection Heq as <- _.
    cbn in Ha'. by apply Forall_cons in Ha' as [[] _].
  - rewrite append_cons in Heq. injection Heq as -> _.
    cbn in Ha. by apply Forall_cons in Ha as [[] _].
  - rewrite !append_cons in Heq. injection Heq as -> Heq.
    cbn in Ha, Ha'. apply Forall_cons in Ha as [_ Ha].
    apply Forall_cons in Ha' as [_ Ha'].
    destruct (IH a' r r' Ha Ha' Heq) as [-> ->]. done.
Qed.

Lemma containers_error_message_inj pid mpc pid' mpc' :
  containers_error_message pid mpc = containers_error_message pid' mpc' ->
  pid = pid' /\ mpc = mpc'.
Proof.
  unfold containers_error_message. intros Heq.
  apply append_inv_head in Heq.
  change (" and num_mpc_containers = " +:+ pretty mpc)
    with (String " " ("and num_mpc_containers = " +:+ pretty mpc)) in Heq.
  change (" and num_mpc_containers = " +:+ pretty mpc')
    with (String " " ("and num_mpc_containers = " +:+ pretty mpc')) in Heq.
  apply no_space_split in Heq as [Hpid Hmpc];
    [|apply pretty_Z_no_space..].
  apply append_inv_head in Hmpc.
  split; by apply (inj pretty).
Qed.

(** C1: a construction whose [num_pid_containers] exceeds its
    [num_mpc_containers] fails with the validation error whose message
    holds the decimal form of both values, so that two such failures carry
    the same error only when both counts agree; any other construction
    succeeds and returns a READY entity, which carries every attribute with
    the supplied or default value. *)
Theorem construct_containers_invariant now args :
  (init_num_pid_containers args > init_num_mpc_containers args ->
     construct now args
       = Raise (ValueError
           ("num_pid_containers must be less than or equal to num_mpc_containers. Received num_pid_containers = "
            +:+ pretty (init_num_pid_containers args)
            +:+ " and num_mpc_containers = "
            +:+ pretty (init_num_mpc_containers args))) /\
     forall now' args',
       construct now' args' = construct now args ->
       init_num_pid_containers args' = init_num_pid_containers args /\
       init_num_mpc_containers args' = init_num_mpc_containers args) /\
  (init_num_pid_containers args <= init_num_mpc_containers args ->
     exists obj,
       construct now args = Ok obj /\ READY obj /\
       obj = fold_left (fun obj a => setattr a obj)
               (init_assignments now args) uninitialized /\
       initialized obj = true).
Proof.
  rewrite construct_spec. split; intros Hcmp.
  - replace (_ >? _) with true by lia. split; [reflexivity|].
    intros now' args'. rewrite construct_spec.
    destruct (_ >? _); [|discriminate].
    intros Heq.
    exact (containers_error_message_inj _ _ _ _
             (f_equal (fun r : result InfraConfig =>
                         match r with
                         | Raise (ValueError msg) => msg
                         | _ => EmptyString
                         end) Heq)).
  - replace (_ >? _) with false by lia.
    eexists; split; [reflexivity|]. split; [|split; reflexivity].
    apply (READY_construct now args). rewrite construct_spec.
    replace (_ >? _) with false by lia. reflexivity.
Qed.

(** ** Field updates *)

Lemma set_field_status now s obj history :
  status_updates obj = Some history ->
  set_field now (set_status s) obj =
    (Ok tt,
     setattr (set_status_updates
                (history ++ [{| su_status := s;
                                su_status_update_ts := now |}]))
       (setattr (set_status_update_ts now) (setattr (set_status s) obj))).
Proof.
  destruct obj; cbn. intros ->. reflexivity.
Qed.

Lemma set_field_containers now a obj :
  hooks (field_of a) = [num_pid_mpc_containers_hook] ->
  set_field now a obj =
    match num_pid_containers (setattr a obj),
          num_mpc_containers (setattr a obj) with
    | Some pid, Some mpc =>
        if pid >? mpc
        then (Raise (ValueError (containers_error_message pid mpc)), obj)
        else (Ok tt, setattr a obj)
    | _, _ => (Ok tt, setattr a obj)
    end.
Proof.
  intros Hh. unfold set_field. rewrite Hh.
  replace (assertWritable obj a) with (Ok tt : result unit)
    by (destruct a; try reflexivity; discriminate).
  cbn [run_hooks]. rewrite run_containers_hook.
  destruct (num_pid_containers (setattr a obj)) as [pid|],
           (num_mpc_containers (setattr a obj)) as [mpc|];
    try reflexivity.
  destruct (pid >? mpc); reflexivity.
Qed.

Lemma set_field_plain now a obj :
  hooks (field_of a) = [] ->
  set_field now a obj =
    match assertWritable obj a with
    | Ok _ => (Ok tt, setattr a obj)
    | Raise e => (Raise e, obj)
    end.
Proof.
  intros Hh. unfold set_field. rewrite Hh. reflexivity.
Qed.

Lemma initialized_all obj :
  initialized obj = true ->
  exists x1 x2 x3 x4 x5 x6 x7 x8 x9 x10 x11 x12 x13 x14 x15 x16 x17 x18,
    obj = Build_InfraConfig (Some x1) (Some x2) (Some x3) (Some x4)
            (Some x5) (Some x6) (Some x7) (Some x8) (Some x9) (Some x10)
            (Some x11) (Some x12) (Some x13) (Some x14) (Some x15)
            (Some x16) (Some x17) (Some x18).
Proof.
  destruct obj as [o1 o2 o3 o4 o5 o6 o7 o8 o9 o10 o11 o12 o13 o14 o15 o16
                   o17 o18].
  unfold initialized; cbn.
  destruct o1; [|discriminate]. destruct o2; [|discriminate].
  destruct o3; [|discriminate]. destruct o4; [|discriminate].
  destruct o5; [|discriminate]. destruct o6; [|discriminate].
  destruct o7; [|discriminate]. destruct o8; [|discriminate].
  destruct o9; [|discriminate]. destruct o10; [|discriminate].
  destruct o11; [|discriminate]. destruct o12; [|discriminate].
  destruct o13; [|discriminate]. destruct o14; [|discriminate].
  destruct o15; [|discriminate]. destruct o16; [|discriminate].
  destruct o17; [|discriminate]. destruct o18; [|discriminate].
  intros _. repeat eexists.
Qed.

Lemma set_field_initialized now a obj :
  initialized obj = true -> initialized (set_field now a obj).2 = true.
Proof.
  intros Hi. destruct (initialized_all obj Hi)
    as (x1&x2&x3&x4&x5&x6&x7&x8&x9&x10&x11&x12&x13&x14&x15&x16&x17&x18&->).
  destruct a;
    try (rewrite set_field_plain by reflexivity; reflexivity);
    try (rewrite set_field_containers by reflexivity; cbn;
         destruct (_ >? _); reflexivity).
  rewrite (set_field_status _ _ _ x10) by reflexivity. reflexivity.
Qed.

Lemma READY_initialized obj : READY obj -> initialized obj = true.
Proof.
  induction 1 as [now args obj Hc|now a obj _ IH].
  - rewrite construct_spec in Hc. destruct (_ >? _); [discriminate|].
    injection Hc as <-. reflexivity.
  - apply set_field_initialized, IH.
Qed.

(** C3: an entity constructed with 2 PID containers and 5 MPC containers
    is READY; updating [num_pid_containers] to 6 is rejected with the
    error that reports 6 and 5, and the entity still holds 2. *)
Theorem rejected_update_keeps_num_pid_containers now now' args :
  init_num_pid_containers args = 2 ->
  init_num_mpc_containers args = 5 ->
  exists obj,
    construct now args = Ok obj /\ READY obj /\
    num_pid_containers obj = Some 2 /\
    set_field now' (set_num_pid_containers 6) obj
      = (Raise (ValueError
           "num_pid_containers must be less than or equal to num_mpc_containers. Received num_pid_containers = 6 and num_mpc_containers = 5"),
         obj) /\
    num_pid_containers (set_field now' (set_num_pid_containers 6) obj).2
      = Some 2.
Proof.
  intros Hpid Hmpc.
  assert (Hc : construct now args
               = Ok (fold_left (fun obj a => setattr a obj)
                       (init_assignments now args) uninitialized)).
  { rewrite construct_spec, Hpid, Hmpc. reflexivity. }
  eexists. split; [exact Hc|]. split; [exact (READY_construct _ _ _ Hc)|].
  assert (Hset : set_field now' (set_num_pid_containers 6)
                   (fold_left (fun obj a => setattr a obj)
                      (init_assignments now args) uninitialized)
                 = (Raise (ValueError (containers_error_message 6 5)),
                    fold_left (fun obj a => setattr a obj)
                      (init_assignments now args) uninitialized)).
  { rewrite set_field_containers by reflexivity.
    cbn [fold_left init_assignments setattr uninitialized
         num_pid_containers num_mpc_containers].
    rewrite Hmpc. reflexivity. }
  rewrite Hset. cbn [snd]. split; [|split; [reflexivity|]].
  - cbn. by rewrite Hpid.
  - cbn. by rewrite Hpid.
Qed.

(** ** Immutable fields *)

(** C4: the fields declared immutable are [instance_id], [game_type],
    [tier] and [creation_ts]. Once such a field holds a value, every
    assignment to it is rejected with [ImmutableFieldViolation] and the
    entity is unchanged; while it holds none, the assignment succeeds and
    writes the value, and the assignments of a construction (supplied
    values, defaults and default factories) all succeed. *)
Theorem immutable_fields_write_once :
  (forall f,
     mutability f = IMMUTABLE_AFTER_INIT <->
     f = f_instance_id \/ f = f_game_type \/ f = f_tier
     \/ f = f_creation_ts) /\
  (forall now a obj,
     mutability (field_of a) = IMMUTABLE_AFTER_INIT ->
     hasattr obj (field_of a) = true ->
     set_field now a obj = (Raise (ImmutableFieldViolation a), obj)) /\
  (forall now a obj,
     mutability (field_of a) = IMMUTABLE_AFTER_INIT ->
     hasattr obj (field_of a) = false ->
     init_assign obj a = Ok (setattr a obj) /\
     set_field now a obj = (Ok tt, setattr a obj) /\
     hasattr (setattr a obj) (field_of a) = true) /\
  (forall now args,
     exists obj,
       init_assign_all uninitialized (init_assignments now args) = Ok obj /\
       instance_id obj = Some (init_instance_id args) /\
       game_type obj = Some (init_game_type args) /\
       tier obj = Some (default None (init_tier args)) /\
       creation_ts obj = Some (default now (init_creation_ts args))).
Proof.
  split; [|split; [|split]].
  - intros f; split.
    + destruct f; cbn; intros [=]; tauto.
    + intros [->|[->|[->| ->]]]; reflexivity.
  - intros now a obj Him Hset. unfold set_field, assertWritable.
    rewrite Him, Hset. reflexivity.
  - intros now a obj Him Hunset.
    assert (Hw : assertWritable obj a = Ok tt).
    { unfold assertWritable. rewrite Him, Hunset. reflexivity. }
    split; [|split].
    + unfold init_assign. rewrite Hw. reflexivity.
    + rewrite set_field_plain, Hw; [reflexivity|].
      destruct a; try discriminate; reflexivity.
    + destruct obj, a; reflexivity.
  - intros now args. eexists. split; [apply init_assign_all_ok|].
    repeat split; reflexivity.
Qed.

(** A READY entity never violates the container-count invariant: rejected
    updates are undone. *)
Lemma READY_containers_valid obj :
  READY obj -> not_valid_containers obj = false.
Proof.
  induction 1 as [now args obj Hc|now a obj Hready IH].
  - rewrite construct_spec in Hc.
    destruct (_ >? _) eqn:E; [discriminate|]. injection Hc as <-.
    rewrite not_valid_containers_spec. exact E.
  - destruct (initialized_all obj (READY_initialized obj Hready))
      as (x1&x2&x3&x4&x5&x6&x7&x8&x9&x10&x11&x12&x13&x14&x15&x16&x17&x18&->).
    rewrite not_valid_containers_spec in IH. cbn in IH.
    destruct a;
      try (rewrite set_field_plain by reflexivity;
           rewrite not_valid_containers_spec; exact IH);
      try (rewrite set_field_containers by reflexivity; cbn -[Z.gtb];
           match goal with
           | |- context [if ?c then _ else _] => destruct c eqn:E
           end;
           rewrite not_valid_containers_spec; assumption).
    rewrite (set_field_status _ _ _ x10) by reflexivity.
    rewrite not_valid_containers_spec. exact IH.
Qed.

(** ** The status history *)

Lemma set_status_all_spec writes : forall obj history,
  status_updates obj = Some history ->
  (set_status_all writes obj).1 = (fun _ => Ok tt) <$> writes /\
  status_updates (set_status_all writes obj).2
    = Some (history
            ++ ((fun w => {| su_status := w.1;
                             su_status_update_ts := w.2 |}) <$> writes)) /\
  match last writes with
  | Some (s, now) =>
      status (set_status_all writes obj).2 = Some s /\
      status_update_ts (set_status_all writes obj).2 = Some now
  | None => (set_status_all writes obj).2 = obj
  end.
Proof.
  induction writes as [|[s now] writes IH]; intros obj history Hh.
  - cbn. rewrite app_nil_r. done.
  - cbn [set_status_all]. rewrite (set_field_status _ _ _ _ Hh).
    set (obj1 := setattr _ (setattr _ (setattr _ obj))).
    assert (H1 : status_updates obj1
                 = Some (history ++ [{| su_status := s;
                                        su_status_update_ts := now |}]))
      by (destruct obj; reflexivity).
    destruct (IH obj1 _ H1) as (Hr & Hl & Hlast).
    destruct (set_status_all writes obj1) as [rs obj2] eqn:E.
    cbn [fst snd] in *. split; [|split].
    + cbn. by rewrite Hr.
    + rewrite Hl. cbn. by rewrite <- app_assoc.
    + destruct writes as [|w writes'].
      * cbn in *. subst obj2. destruct obj; done.
      * rewrite last_cons_cons.
        destruct (last (w :: writes')) as [[s' now']|] eqn:El;
          [exact Hlast | by apply last_None in El].
Qed.

Lemma Sorted_le_app (l1 l2 : list Z) :
  Sorted Z.le l1 -> Sorted Z.le l2 ->
  (forall a b, last l1 = Some a -> head l2 = Some b -> a <= b) ->
  Sorted Z.le (l1 ++ l2).
Proof.
  induction l1 as [|x l1 IH]; intros H1 H2 Hb; [exact H2|].
  apply Sorted_inv in H1 as [H1 Hhd]. cbn. constructor.
  - apply IH; [exact H1|exact H2|]. intros a b Ha Hb'.
    apply Hb; [|exact Hb']. destruct l1; [discriminate|].
    by rewrite last_cons_cons.
  - destruct l1 as [|y l1]; cbn.
    + destruct l2 as [|b l2]; constructor. by apply Hb.
    + constructor. by apply HdRel_inv in Hhd.
Qed.

Lemma set_status_all_READY writes : forall obj,
  READY obj -> READY (set_status_all writes obj).2.
Proof.
  induction writes as [|[s now] writes IH]; intros obj Hready; [exact Hready|].
  cbn [set_status_all].
  pose proof (READY_set_field now (set_status s) obj Hready) as H1.
  destruct (set_field now (set_status s) obj) as [r obj1].
  specialize (IH obj1 H1).
  destruct (set_status_all writes obj1) as [rs obj2]. exact IH.
Qed.

(** C2, as the code has it: [N] status updates of a READY entity all
    succeed and leave [status_updates] as the entries it held before
    followed by exactly [N] new entries in write order, the i-th being the
    i-th written status with the clock reading of that update; [status] and
    [status_update_ts] end as the last update wrote them and the entity is
    still READY; and the timestamps of the entries are non-decreasing when
    those held before were, the clock readings of the updates are, and the
    first reading is not below the last timestamp held before. *)
Theorem status_updates_appended obj writes :
  READY obj ->
  READY (set_status_all writes obj).2 /\
  (set_status_all writes obj).1 = (fun _ => Ok tt) <$> writes /\
  (exists history, status_updates obj = Some history) /\
  (forall history,
     status_updates obj = Some history ->
     status_updates (set_status_all writes obj).2
       = Some (history
               ++ ((fun w => {| su_status := w.1;
                                su_status_update_ts := w.2 |})
                     <$> writes)) /\
     length (history
             ++ ((fun w => {| su_status := w.1;
                              su_status_update_ts := w.2 |})
                   <$> writes))
       = (length history + length writes)%nat /\
     (Sorted Z.le (su_status_update_ts <$> history) ->
      Sorted Z.le writes.*2 ->
      (forall e w,
         last history = Some e -> head writes = Some w ->
         su_status_update_ts e <= w.2) ->
      forall entries,
        status_updates (set_status_all writes obj).2 = Some entries ->
        Sorted Z.le (su_status_update_ts <$> entries))) /\
  match last writes with
  | Some (s, now) =>
      status (set_status_all writes obj).2 = Some s /\
      status_update_ts (set_status_all writes obj).2 = Some now
  | None => (set_status_all writes obj).2 = obj
  end.
Proof.
  intros Hready. split; [by apply set_status_all_READY|].
  apply READY_initialized in Hready.
  destruct (initialized_all obj Hready)
    as (x1&x2&x3&x4&x5&x6&x7&x8&x9&x10&x11&x12&x13&x14&x15&x16&x17&x18&->).
  match goal with
  | |- context [set_status_all writes ?o] =>
      destruct (set_status_all_spec writes o x10 eq_refl)
        as (Hr & Hl & Hlast)
  end.
  split; [exact Hr|]. split; [by eexists|]. split; [|exact Hlast].
  intros history [= <-]. split; [exact Hl|]. split.
  { by rewrite length_app, length_fmap. }
  intros Hs1 Hs2 Hbound entries Hentries.
  rewrite Hl in Hentries. injection Hentries as <-.
  rewrite fmap_app, <- list_fmap_compose.
  replace ((su_status_update_ts
            ∘ (fun w : PrivateComputationInstanceStatus * Z =>
                 {| su_status := w.1; su_status_update_ts := w.2 |}))
           <$> writes) with (writes.*2)
    by (apply list_fmap_ext; by intros i [s t] _).
  apply Sorted_le_app; [exact Hs1|exact Hs2|].
  intros a b Ha Hb. rewrite fmap_last in Ha.
  destruct (last x10) as [e|] eqn:He; [|discriminate].
  injection Ha as <-.
  destruct writes as [|w writes']; [discriminate|].
  injection Hb as <-. by apply (Hbound e w).
Qed.

End infra_config_properties.

Section terraform_properties.
Import terraform_deployment_utils.

(** ** The command-argument builder *)

Section builder.
Variable container_str : Value -> string.

Lemma append_loop {A} (f : A -> string) l : forall acc,
  fold_left (fun acc x => acc ++ [f x]) l acc = acc ++ map f l.
Proof.
  induction l as [|x l IH]; intros acc; cbn.
  - by rewrite app_nil_r.
  - by rewrite IH, <- app_assoc.
Qed.

Lemma add_option_app acc item :
  add_option container_str acc item
    = acc ++ add_option container_str [] item.
Proof.
  destruct item as [key [| b | n | s | l | d]]; cbn;
    rewrite ?app_nil_r; try reflexivity.
  - by rewrite !append_loop.
  - by destruct (py.contains _ _); rewrite ?app_nil_r.
Qed.

Lemma add_options_app kwargs : forall acc,
  fold_left (add_option container_str) kwargs acc
    = acc ++ fold_left (add_option container_str) kwargs [].
Proof.
  induction kwargs as [|item kwargs IH]; intros acc; cbn [fold_left].
  - by rewrite app_nil_r.
  - rewrite IH, (IH (add_option _ [] _)), add_option_app.
    by rewrite <- app_assoc.
Qed.

(** The tokens of one option sit between those of the options before it
    and those of the options after it. *)
Lemma get_command_list_middle command args before item after :
  get_command_list container_str command args (before ++ item :: after)
    = get_command_list container_str command [] before
      ++ add_option container_str [] item
      ++ get_command_list container_str "" [] after ++ args.
Proof.
  unfold get_command_list. change (py.split "") with (@nil string).
  rewrite !app_nil_r, fold_left_app. cbn [fold_left].
  rewrite add_options_app, add_option_app.
  by rewrite <- !app_assoc.
Qed.

Lemma get_command_list_app command args before after :
  get_command_list container_str command args (before ++ after)
    = get_command_list container_str command [] before
      ++ get_command_list container_str "" [] after ++ args.
Proof.
  unfold get_command_list. change (py.split "") with (@nil string).
  rewrite !app_nil_r, fold_left_app, add_options_app.
  by rewrite <- !app_assoc.
Qed.

Lemma replace_get old new s : forall i,
  String.get i (py.replace old new s)
    = (fun c => if Ascii.eqb c old then new else c) <$> String.get i s.
Proof.
  induction s as [|c s IH]; intros [|i]; cbn; try reflexivity. apply IH.
Qed.

(** C6: a mapping-valued option whose hyphenated name contains
    "backend-config" contributes, at its place in the command, one token
    per entry of the mapping, in order: the flag "-backend-config", a
    space, then the entry as key=value, where a [str] key or value stands
    as it is, an [int] in decimal, [None] as None and a [bool] as True or
    False. *)
Theorem backend_config_tokens command args before key d after :
  py.contains "backend-config" (py.replace "_" "-" key) = true ->
  get_command_list container_str command args
      (before ++ (key, VDict d) :: after)
    = get_command_list container_str command [] before
      ++ map (fun '(k, v) =>
                "-backend-config " +:+ str container_str k +:+ "="
                +:+ str container_str v) d
      ++ get_command_list container_str "" [] after ++ args /\
  (forall entries : list (string * string),
     get_command_list container_str command args
         (before
          ++ (key, VDict ((fun '(k, v) => (VStr k, VStr v)) <$> entries))
             :: after)
       = get_command_list container_str command [] before
         ++ map (fun '(k, v) => "-backend-config " +:+ k +:+ "=" +:+ v)
              entries
         ++ get_command_list container_str "" [] after ++ args) /\
  (forall s, str container_str (VStr s) = s) /\
  (forall n, str container_str (VInt n) = pretty n) /\
  str container_str VNone = "None" /\
  str container_str (VBool true) = "True" /\
  str container_str (VBool false) = "False".
Proof.
  intros Hkey. split; [|split; [|done]].
  - rewrite get_command_list_middle. cbn. by rewrite Hkey.
  - intros entries. rewrite get_command_list_middle. cbn. rewrite Hkey.
    do 2 f_equal. unfold fmap. rewrite map_map. apply map_ext.
    by intros [k v].
Qed.

(** C7: in the hyphenated option name every underscore has become a hyphen
    and every other character is kept; a boolean option contributes the
    single token -name=true or -name=false; a list option contributes one
    token -name=element per element, in list order; an [int] or [str]
    option contributes the single token -name=value. In each, name is the
    hyphenated option name. *)
Theorem scalar_and_list_tokens command args before key after :
  (forall i,
     String.get i (py.replace "_" "-" key)
       = (fun c => if Ascii.eqb c "_" then "-"%char else c)
           <$> String.get i key) /\
  (forall b,
     get_command_list container_str command args
         (before ++ (key, VBool b) :: after)
       = get_command_list container_str command [] before
         ++ ["-" +:+ py.replace "_" "-" key +:+ "="
             +:+ (if b then "true" else "false")]
         ++ get_command_list container_str "" [] after ++ args) /\
  (forall l,
     get_command_list container_str command args
         (before ++ (key, VList l) :: after)
       = get_command_list container_str command [] before
         ++ map (fun inner_value =>
                   "-" +:+ py.replace "_" "-" key +:+ "="
                   +:+ str container_str inner_value) l
         ++ get_command_list container_str "" [] after ++ args) /\
  (forall n,
     get_command_list container_str command args
         (before ++ (key, VInt n) :: after)
       = get_command_list container_str command [] before
         ++ ["-" +:+ py.replace "_" "-" key +:+ "=" +:+ pretty n]
         ++ get_command_list container_str "" [] after ++ args) /\
  (forall s,
     get_command_list container_str command args
         (before ++ (key, VStr s) :: after)
       = get_command_list container_str command [] before
         ++ ["-" +:+ py.replace "_" "-" key +:+ "=" +:+ s]
         ++ get_command_list container_str "" [] after ++ args).
Proof.
  split; [|split; [|split; [|split]]].
  - apply replace_get.
  - intros b. by rewrite get_command_list_middle.
  - intros l. rewrite get_command_list_middle. cbn.
    by rewrite append_loop.
  - intros n. by rewrite get_command_list_middle.
  - intros s. by rewrite get_command_list_middle.
Qed.

(** C9: an option whose value is [None], and a mapping-valued option
    whose hyphenated name does not contain "backend-config", contribute
    no token: the command list is the one built without the option. *)
Theorem none_and_other_mappings_dropped command args before key after :
  get_command_list container_str command args
      (before ++ (key, VNone) :: after)
    = get_command_list container_str command args (before ++ after) /\
  (forall d,
     py.contains "backend-config" (py.replace "_" "-" key) = false ->
     get_command_list container_str command args
         (before ++ (key, VDict d) :: after)
       = get_command_list container_str command args (before ++ after)).
Proof.
  split; [|intros d Hkey];
    rewrite get_command_list_middle, get_command_list_app; cbn.
  - reflexivity.
  - by rewrite Hkey.
Qed.

End builder.

(** ** Default options *)

Lemma dict_set_keys k v d k' :
  k' ∈ dict_keys (dict_set k v d) <-> k' = k \/ k' ∈ dict_keys d.
Proof.
  unfold dict_keys. induction d as [|[k0 v0] d IH]; cbn.
  - rewrite list_elem_of_singleton, elem_of_nil. tauto.
  - destruct (String.eqb_spec k0 k) as [->|Hne]; cbn;
      rewrite !elem_of_cons; [tauto|]. rewrite IH. tauto.
Qed.

Lemma dict_set_NoDup k v d :
  NoDup (dict_keys d) -> NoDup (dict_keys (dict_set k v d)).
Proof.
  unfold dict_keys. induction d as [|[k0 v0] d IH]; cbn.
  - intros _. apply NoDup_singleton.
  - rewrite NoDup_cons. intros [Hnotin Hnd].
    destruct (String.eqb_spec k0 k) as [->|Hne]; cbn;
      rewrite NoDup_cons; [done|]. split; [|by apply IH].
    intros Hin. apply (dict_set_keys k v d k0) in Hin as [->|Hin]; done.
Qed.

Lemma dict_update_keys items : forall d k',
  k' ∈ dict_keys (dict_update d items)
    <-> k' ∈ dict_keys d \/ k' ∈ items.*1.
Proof.
  unfold dict_update.
  induction items as [|[k v] items IH]; intros d k'; cbn.
  - rewrite elem_of_nil. tauto.
  - rewrite IH, dict_set_keys, elem_of_cons. tauto.
Qed.

Lemma dict_update_NoDup items : forall d,
  NoDup (dict_keys d) -> NoDup (dict_keys (dict_update d items)).
Proof.
  unfold dict_update.
  induction items as [|[k v] items IH]; intros d Hnd; cbn; [done|].
  by apply IH, dict_set_NoDup.
Qed.

Lemma dict_pop_elem k d k' v' :
  NoDup (dict_keys d) ->
  (k', v') ∈ dict_pop k d <-> (k', v') ∈ d /\ k' ≠ k.
Proof.
  unfold dict_keys. induction d as [|[k0 v0] d IH]; cbn.
  - rewrite elem_of_nil. tauto.
  - rewrite NoDup_cons. intros [Hnotin Hnd].
    destruct (String.eqb_spec k0 k) as [->|Hne]; rewrite !elem_of_cons.
    + split.
      * intros Hin. split; [by right|]. intros ->. apply Hnotin.
        by apply (list_elem_of_fmap_2 fst) in Hin.
      * intros [[[= -> ->]|Hin] Hk]; done.
    + rewrite (IH Hnd). split.
      * intros [[= -> ->]|[Hin Hk]]; [by split; [left|]|by split; [right|]].
      * intros [[[= -> ->]|Hin] Hk]; [by left|by right].
Qed.

Lemma dict_pop_NoDup k d :
  NoDup (dict_keys d) -> NoDup (dict_keys (dict_pop k d)).
Proof.
  unfold dict_keys. induction d as [|[k0 v0] d IH]; cbn; [done|].
  rewrite NoDup_cons. intros [Hnotin Hnd].
  destruct (String.eqb_spec k0 k) as [->|Hne]; [done|]. cbn.
  rewrite NoDup_cons. split; [|by apply IH].
  intros Hin. apply Hnotin.
  apply list_elem_of_fmap in Hin as ([k1 v1] & -> & Hin).
  apply (dict_pop_elem _ _ _ _ Hnd) in Hin as [Hin _].
  by apply (list_elem_of_fmap_2 fst) in Hin.
Qed.

Lemma dict_pop_all_elem ks : forall d k' v',
  NoDup (dict_keys d) ->
  (k', v') ∈ fold_left (fun d k => dict_pop k d) ks d
    <-> (k', v') ∈ d /\ k' ∉ ks.
Proof.
  induction ks as [|k ks IH]; intros d k' v' Hnd; cbn.
  - rewrite elem_of_nil. tauto.
  - rewrite (IH _ _ _ (dict_pop_NoDup k d Hnd)), (dict_pop_elem _ _ _ _ Hnd).
    rewrite not_elem_of_cons. tauto.
Qed.

(** C8: for every subcommand other than "init" the result holds the six
    default options ([state], [target], [var], [var_file], [parallelism],
    [input]) and the input options, and nothing else; for "init" the result
    is that same mapping with exactly the options of the denylist removed. *)
Theorem get_default_options_denylist `{models : Models} self
    terraform_command input_options :
  terraform_command ≠ "init" ->
  (forall k,
     k ∈ dict_keys (get_default_options self terraform_command input_options)
     <-> k ∈ [state; target; var; var_file; parallelism; terraform_input]
         \/ k ∈ dict_keys input_options) /\
  (forall k v,
     (k, v) ∈ get_default_options self "init" input_options <->
     (k, v) ∈ get_default_options self terraform_command input_options /\
     k ∉ NOT_SUPPORTED_INIT_DEFAULT_OPTIONS).
Proof.
  intros Hcmd. unfold get_default_options.
  apply String.eqb_neq in Hcmd. rewrite Hcmd.
  change ("init" =? "init")%string with true. cbv iota. split.
  - intros k. rewrite dict_update_keys, fmap_app, elem_of_app.
    unfold dict_keys. cbn [fmap list_fmap fst]. rewrite elem_of_nil. tauto.
  - intros k v. apply dict_pop_all_elem, dict_update_NoDup, NoDup_nil_2.
Qed.

End terraform_properties.

Section pid_properties.
Import pid_utils.
Context {models : Models}.

(** C10: row numbering is reported enabled exactly when the caller asked for
    it and the protocol is not UNION_PID_MULTIKEY; with the multikey
    protocol it is reported disabled whatever the caller asked. *)
Theorem pid_should_use_row_numbers_iff pid_use_row_numbers pid_protocol :
  (pid_should_use_row_numbers pid_use_row_numbers pid_protocol = true <->
     pid_use_row_numbers = true /\ pid_protocol ≠ UNION_PID_MULTIKEY) /\
  pid_should_use_row_numbers pid_use_row_numbers UNION_PID_MULTIKEY = false.
Proof.
  unfold pid_should_use_row_numbers. split.
  - destruct pid_use_row_numbers; cbn;
      [|split; [discriminate|intros [? _]; discriminate]].
    destruct (decide (pid_protocol = UNION_PID_MULTIKEY)) as [->|Hne].
    + rewrite bool_decide_eq_true_2 by done. cbn.
      split; [discriminate|intros [_ Hne]; by destruct Hne].
    + rewrite bool_decide_eq_false_2 by done. cbn. done.
  - rewrite bool_decide_eq_true_2 by reflexivity.
    by destruct pid_use_row_numbers.
Qed.

End pid_properties.

(** * Closed instances *)

Section infra_config_instances.
Import infra_config.

Lemma example_entity_READY num_pid num_mpc history :
  (num_pid >? num_mpc) = false ->
  READY (example_entity num_pid num_mpc history).
Proof.
  intros Hcmp.
  apply (READY_construct 100 (example_args num_pid num_mpc history)).
  rewrite construct_spec. cbn [init_num_pid_containers example_args
    init_num_mpc_containers]. rewrite Hcmp. reflexivity.
Defined.

Lemma construct_containers_invariant_witness :
  construct 100 (example_args 3 2 [])
    = Raise (ValueError
        "num_pid_containers must be less than or equal to num_mpc_containers. Received num_pid_containers = 3 and num_mpc_containers = 2") /\
  construct 100 (example_args (-4) (-7) [])
    = Raise (ValueError
        "num_pid_containers must be less than or equal to num_mpc_containers. Received num_pid_containers = -4 and num_mpc_containers = -7") /\
  exists obj,
    construct 100 (example_args 2 5 []) = Ok obj /\ READY obj /\
    obj = example_entity 2 5 [] /\ initialized obj = true.
Proof.
  split; [|split].
  - destruct (proj1 (construct_containers_invariant 100
                       (example_args 3 2 []))) as [Hmsg _]; [cbn; lia|].
    rewrite Hmsg. reflexivity.
  - destruct (proj1 (construct_containers_invariant 100
                       (example_args (-4) (-7) []))) as [Hmsg _];
      [cbn; lia|].
    rewrite Hmsg. reflexivity.
  - apply (proj2 (construct_containers_invariant 100 (example_args 2 5 []))).
    cbn. lia.
Defined.

Lemma rejected_update_keeps_num_pid_containers_witness :
  exists obj,
    construct 100 (example_args 2 5 []) = Ok obj /\ READY obj /\
    num_pid_containers obj = Some 2 /\
    set_field 200 (set_num_pid_containers 6) obj
      = (Raise (ValueError
           "num_pid_containers must be less than or equal to num_mpc_containers. Received num_pid_containers = 6 and num_mpc_containers = 5"),
         obj) /\
    num_pid_containers (set_field 200 (set_num_pid_containers 6) obj).2
      = Some 2.
Proof.
  apply (rejected_update_keeps_num_pid_containers 100 200
           (example_args 2 5 [])); reflexivity.
Defined.

Lemma immutable_fields_write_once_witness :
  set_field 200 (set_tier (Some "rc")) (example_entity 2 5 [])
    = (Raise (ImmutableFieldViolation (set_tier (Some "rc"))),
       example_entity 2 5 []) /\
  init_assign uninitialized (set_creation_ts 100)
    = Ok (setattr (set_creation_ts 100) (@uninitialized example_types)).
Proof.
  destruct (@immutable_fields_write_once example_types)
    as (_ & Hset & Hfirst & _). split.
  - apply Hset; reflexivity.
  - apply (Hfirst 100); reflexivity.
Defined.

Lemma not_valid_containers_iff_witness :
  raise_containers_error
      (setattr (set_num_mpc_containers 2)
         (setattr (set_num_pid_containers 3) (@uninitialized example_types)))
    = Raise (ValueError (containers_error_message 3 2)) /\
  not_valid_containers
    (setattr (set_num_pid_containers 3) (@uninitialized example_types))
    = false.
Proof.
  split.
  - apply (proj1 (proj2 (not_valid_containers_iff
                           (setattr (set_num_mpc_containers 2)
                              (setattr (set_num_pid_containers 3)
                                 (@uninitialized example_types))))))
      with (event := POST_UPDATE) (now := 0); [reflexivity|reflexivity|lia].
  - apply (proj2 (proj2 (not_valid_containers_iff
                           (setattr (set_num_pid_containers 3)
                              (@uninitialized example_types))))).
    right. reflexivity.
Defined.

Lemma status_updates_appended_witness :
  (set_status_all example_updates
     (example_entity 2 5 example_history_in_order)).1 = [Ok tt; Ok tt] /\
  status_updates
      (set_status_all example_updates
         (example_entity 2 5 example_history_in_order)).2
    = Some [ @Build_StatusUpdate example_types "CREATED" 1;
             @Build_StatusUpdate example_types "STARTED" 5;
             @Build_StatusUpdate example_types "RUNNING" 7;
             @Build_StatusUpdate example_types "DONE" 9 ] /\
  Sorted Z.le [1; 5; 7; 9].
Proof.
  destruct (status_updates_appended
              (example_entity 2 5 example_history_in_order) example_updates
              (example_entity_READY 2 5 example_history_in_order eq_refl))
    as (_ & Hr & _ & Hh & _).
  destruct (Hh example_history_in_order eq_refl) as (Hl & _ & Hs).
  split; [exact Hr|]. split; [exact Hl|].
  assert (Hs1 : Sorted Z.le [1; 5]) by (repeat constructor; lia).
  assert (Hs2 : Sorted Z.le [7; 9]) by (repeat constructor; lia).
  assert (Hb : forall (e : @StatusUpdate example_types)
                      (w : @PrivateComputationInstanceStatus example_types * Z),
             last example_history_in_order = Some e ->
             head example_updates = Some w ->
             su_status_update_ts e <= w.2)
    by (intros e w [= <-] [= <-]; cbn; lia).
  exact (Hs Hs1 Hs2 Hb _ Hl).
Defined.

(** C2 as stated fails on the code. A READY entity constructed with a
    history of two entries holds three entries after one status update, not
    one, and their timestamps 10, 5, 3 decrease; and an entity constructed
    with an empty history records the timestamps 7, 3 when the clock is set
    back between two updates. *)
Lemma status_updates_count_counterexample :
  READY (example_entity 2 5 example_history) /\
  (set_status_all example_update (example_entity 2 5 example_history)).1
    = [Ok tt] /\
  status_updates
      (set_status_all example_update (example_entity 2 5 example_history)).2
    = Some [ @Build_StatusUpdate example_types "CREATED" 10;
             @Build_StatusUpdate example_types "STARTED" 5;
             @Build_StatusUpdate example_types "RUNNING" 3 ] /\
  length [ @Build_StatusUpdate example_types "CREATED" 10;
           @Build_StatusUpdate example_types "STARTED" 5;
           @Build_StatusUpdate example_types "RUNNING" 3 ]
    ≠ length example_update /\
  ¬ Sorted Z.le [10; 5; 3] /\
  READY (example_entity 2 5 []) /\
  (set_status_all example_updates_clock_set_back (example_entity 2 5 [])).1
    = [Ok tt; Ok tt] /\
  status_updates
      (set_status_all example_updates_clock_set_back
         (example_entity 2 5 [])).2
    = Some [ @Build_StatusUpdate example_types "RUNNING" 7;
             @Build_StatusUpdate example_types "DONE" 3 ] /\
  ¬ Sorted Z.le [7; 3].
Proof.
  repeat split; try reflexivity;
    try (apply example_entity_READY; reflexivity).
  - cbn. lia.
  - intros Hs. apply Sorted_inv in Hs as [_ Hhd].
    apply HdRel_inv in Hhd. lia.
  - intros Hs. apply Sorted_inv in Hs as [_ Hhd].
    apply HdRel_inv in Hhd. lia.
Qed.

End infra_config_instances.

Section terraform_instances.
Import terraform_deployment_utils.

Example get_command_list_example :
  get_command_list example_container_str "terraform  init" ["-reconfigure"]
    [ ("input", VBool false);
      ("backend_config",
        VDict [(VStr "bucket", VStr "b"); (VStr "region", VStr "us-west-2")]);
      ("var_file", VNone);
      ("var", VDict [(VStr "k", VStr "v")]);
      ("target", VList [VStr "a"; VStr "b"]);
      ("parallelism", VInt 10) ]
  = [ "terraform"; "init"; "-input=false"; "-backend-config bucket=b";
      "-backend-config region=us-west-2"; "-target=a"; "-target=b";
      "-parallelism=10"; "-reconfigure" ].
Proof. reflexivity. Qed.

Example get_default_options_example :
  @get_default_options example_models (__init__ None None None None None) "init"
    [("backend_config", VDict []); ("input", VBool true)]
    = [("input", VBool true); ("backend_config", VDict [])] /\
  @get_default_options example_models (__init__ None None None None None) "apply"
    [("backend_config", VDict []); ("input", VBool true)]
    = [ ("state", VNone); ("target", VList []); ("var", VDict []);
        ("var_file", VNone); ("parallelism", VInt 10);
        ("input", VBool true); ("backend_config", VDict []) ].
Proof. split; reflexivity. Qed.

Lemma backend_config_tokens_witness :
  get_command_list example_container_str "terraform init" ["-reconfigure"]
      ([("input", VBool false)]
       ++ ("backend_config",
            VDict [ (VStr "bucket", VStr "b"); (VStr "region", VInt 2);
                    (VStr "encrypt", VBool true); (VInt 7, VNone) ])
          :: [("var_file", VNone)])
    = [ "terraform"; "init"; "-input=false"; "-backend-config bucket=b";
        "-backend-config region=2"; "-backend-config encrypt=True";
        "-backend-config 7=None"; "-reconfigure" ].
Proof.
  rewrite (proj1 (backend_config_tokens example_container_str
                    "terraform init" ["-reconfigure"]
                    [("input", VBool false)] "backend_config"
                    [ (VStr "bucket", VStr "b"); (VStr "region", VInt 2);
                      (VStr "encrypt", VBool true); (VInt 7, VNone) ]
                    [("var_file", VNone)] eq_refl)).
  reflexivity.
Defined.

Lemma none_and_other_mappings_dropped_witness :
  get_command_list example_container_str "terraform plan" []
      ([("input", VBool false)]
       ++ ("var", VDict [(VStr "k", VStr "v")]) :: [("parallelism", VInt 10)])
    = get_command_list example_container_str "terraform plan" []
        ([("input", VBool false)] ++ [("parallelism", VInt 10)]).
Proof.
  apply (proj2 (none_and_other_mappings_dropped example_container_str
                  "terraform plan" [] [("input", VBool false)] "var"
                  [("parallelism", VInt 10)])).
  reflexivity.
Defined.

Lemma get_default_options_denylist_witness :
  (forall k,
     k ∈ dict_keys
           (@get_default_options example_models
              (__init__ None None None None None) "apply"
              [("backend_config", VDict [])])
     <-> k ∈ ["state"; "target"; "var"; "var_file"; "parallelism"; "input"]
         \/ k ∈ dict_keys [("backend_config", VDict [])]) /\
  (forall k v,
     (k, v) ∈ @get_default_options example_models
                (__init__ None None None None None) "init"
                [("backend_config", VDict [])] <->
     (k, v) ∈ @get_default_options example_models
                (__init__ None None None None None) "apply"
                [("backend_config", VDict [])] /\
     k ∉ ["state"; "target"; "var"; "var_file"; "parallelism"]).
Proof.
  apply (@get_default_options_denylist example_models
           (__init__ None None None None None) "apply"
           [("backend_config", VDict [])]).
  discriminate.
Defined.

End terraform_instances.

(** * Part III. Further properties of the code *)

Section terraform_further.
Import terraform_deployment_utils.

Section builder.
Variable container_str : Value -> string.

(** X1: the command list is the tokens of the command, then the tokens of
    the options in the order of the options, then the positional arguments;
    with no option it is the tokens of the command and the arguments. *)
Theorem get_command_list_layout command args kwargs1 kwargs2 :
  get_command_list container_str command args (kwargs1 ++ kwargs2)
    = py.split command
      ++ get_command_list container_str "" [] kwargs1
      ++ get_command_list container_str "" [] kwargs2
      ++ args /\
  get_command_list container_str command args [] = py.split command ++ args.
Proof.
  unfold get_command_list. change (py.split "") with (@nil string).
  rewrite !app_nil_r, fold_left_app. cbn [fold_left]. split; [|done].
  rewrite (add_options_app _ kwargs2), (add_options_app _ kwargs1).
  by rewrite <- !app_assoc.
Qed.

Lemma option_tokens_dash kwargs : forall acc,
  Forall (fun t => exists rest, t = "-" +:+ rest) acc ->
  Forall (fun t => exists rest, t = "-" +:+ rest)
    (fold_left (add_option container_str) kwargs acc).
Proof.
  induction kwargs as [|[key value] kwargs IH]; intros acc Hacc; [done|].
  cbn [fold_left]. apply IH. rewrite add_option_app.
  apply Forall_app. split; [done|].
  destruct value as [| b | n | s | l | d]; cbn.
  - constructor.
  - repeat constructor. by eexists.
  - repeat constructor. by eexists.
  - repeat constructor. by eexists.
  - rewrite append_loop. cbn. apply Forall_forall.
    intros t Ht. apply list_elem_of_In, in_map_iff in Ht as (v & <- & _).
    by eexists.
  - destruct (py.contains _ _); [|constructor]. cbn. apply Forall_forall.
    intros t Ht. apply list_elem_of_In, in_map_iff in Ht as ([k v] & <- & _).
    by eexists.
Qed.

(** X2: every token that an option contributes starts with a hyphen,
    whatever the option's name and value. *)
Theorem option_tokens_start_with_dash kwargs t :
  t ∈ get_command_list container_str "" [] kwargs ->
  exists rest, t = "-" +:+ rest.
Proof.
  unfold get_command_list. change (py.split "") with (@nil string).
  rewrite app_nil_r. intros Ht.
  pose proof (option_tokens_dash kwargs [] (Forall_nil_2 _)) as Hall.
  rewrite Forall_forall in Hall. by apply Hall.
Qed.

(** X3: an option whose value is an empty list or an empty mapping
    contributes no token, whatever its name. *)
Theorem empty_containers_dropped command args before key after :
  get_command_list container_str command args
      (before ++ (key, VList []) :: after)
    = get_command_list container_str command args (before ++ after) /\
  get_command_list container_str command args
      (before ++ (key, VDict []) :: after)
    = get_command_list container_str command args (before ++ after).
Proof.
  split; rewrite get_command_list_middle, get_command_list_app; cbn.
  - reflexivity.
  - by destruct (py.contains _ _).
Qed.

Lemma list_ascii_snoc s c :
  String.list_ascii_of_string (s +:+ String c EmptyString)
    = String.list_ascii_of_string s ++ [c].
Proof.
  induction s as [|c' s IH]; [done|].
  change (String c' s +:+ String c EmptyString)
    with (String c' (s +:+ String c EmptyString)).
  cbn [String.list_ascii_of_string]. by rewrite IH.
Qed.

Lemma split_go_tokens s : forall cur,
  Forall (fun c => py.isspace c = false) (String.list_ascii_of_string cur) ->
  Forall (fun t => t ≠ EmptyString /\
                   Forall (fun c => py.isspace c = false)
                     (String.list_ascii_of_string t))
    (py.split_go cur s).
Proof.
  induction s as [|c s IH]; intros cur Hcur; cbn.
  - destruct cur; constructor; [split; [done|exact Hcur]|constructor].
  - destruct (py.isspace c) eqn:Hc.
    + specialize (IH EmptyString (Forall_nil_2 _)).
      destruct cur; [exact IH|].
      constructor; [split; [done|exact Hcur]|exact IH].
    + apply IH. rewrite list_ascii_snoc. apply Forall_app. split; [done|].
      constructor; [exact Hc|constructor].
Qed.

(** X4: the tokens taken from the command string are never empty and hold
    no whitespace character, however the command is spaced. *)
Theorem command_tokens_nonempty_no_whitespace command t :
  t ∈ get_command_list container_str command [] [] ->
  t ≠ EmptyString /\
  Forall (fun c => py.isspace c = false) (String.list_ascii_of_string t).
Proof.
  unfold get_command_list. cbn [fold_left]. rewrite app_nil_r. intros Ht.
  pose proof (split_go_tokens command EmptyString (Forall_nil_2 _)) as Hall.
  rewrite Forall_forall in Hall. by apply Hall.
Qed.

End builder.

End terraform_further.

Section terraform_defaults_further.
Import terraform_deployment_utils.
Context {models : Models}.

Lemma dict_set_elem_same k v d : (k, v) ∈ dict_set k v d.
Proof.
  induction d as [|[k0 v0] d IH]; cbn; [by left|].
  destruct (String.eqb_spec k0 k); [by left|by right].
Qed.

Lemma dict_set_elem_other k v d k' v' :
  k' ≠ k -> (k', v') ∈ d -> (k', v') ∈ dict_set k v d.
Proof.
  intros Hne. induction d as [|[k0 v0] d IH]; cbn.
  - by rewrite elem_of_nil.
  - rewrite elem_of_cons. intros [[= <- <-]|Hin].
    + destruct (String.eqb_spec k' k); [done|by left].
    + destruct (String.eqb_spec k0 k); right; [done|by apply IH].
Qed.

Lemma dict_update_elem_keep items : forall d k v,
  k ∉ items.*1 -> (k, v) ∈ d -> (k, v) ∈ dict_update d items.
Proof.
  unfold dict_update.
  induction items as [|[k0 v0] items IH]; intros d k v Hk Hin; cbn; [done|].
  cbn in Hk. apply not_elem_of_cons in Hk as [Hne Hk].
  apply IH; [done|]. by apply dict_set_elem_other.
Qed.

Lemma dict_update_elem_items items : forall d k v,
  NoDup items.*1 -> (k, v) ∈ items -> (k, v) ∈ dict_update d items.
Proof.
  induction items as [|[k0 v0] items IH]; intros d k v Hnd Hin.
  - by apply elem_of_nil in Hin.
  - cbn in Hnd. apply NoDup_cons in Hnd as [Hk0 Hnd].
    apply elem_of_cons in Hin as [[= -> ->]|Hin].
    + change (dict_update d ((k0, v0) :: items))
        with (dict_update (dict_set k0 v0 d) items).
      apply dict_update_elem_keep; [done|apply dict_set_elem_same].
    + change (dict_update d ((k0, v0) :: items))
        with (dict_update (dict_set k0 v0 d) items).
      by apply IH.
Qed.

(** X6: an option that the caller passes in [input_options] is in the
    result with the caller's value, also when its name is the name of a
    default option, unless the subcommand is "init" and the name is on the
    denylist. *)
Theorem input_options_take_precedence self terraform_command
    input_options k v :
  NoDup (dict_keys input_options) ->
  (k, v) ∈ input_options ->
  terraform_command ≠ "init" \/ k ∉ NOT_SUPPORTED_INIT_DEFAULT_OPTIONS ->
  (k, v) ∈ get_default_options self terraform_command input_options.
Proof.
  intros Hnd Hin Hcase. unfold get_default_options.
  match goal with
  | |- context [dict_update [] (?defaults ++ input_options)] =>
      assert (Hfull : (k, v) ∈ dict_update [] (defaults ++ input_options))
  end.
  { unfold dict_update. rewrite fold_left_app.
    by apply dict_update_elem_items. }
  destruct (String.eqb_spec terraform_command "init") as [->|Hne];
    [|exact Hfull].
  destruct Hcase as [?|Hk]; [done|].
  apply dict_pop_all_elem; [|done].
  apply dict_update_NoDup, NoDup_nil_2.
Qed.

Lemma dict_set_fresh k v d : k ∉ dict_keys d -> dict_set k v d = d ++ [(k, v)].
Proof.
  unfold dict_keys. induction d as [|[k0 v0] d IH]; cbn; [done|].
  rewrite not_elem_of_cons. intros [Hne Hk].
  destruct (String.eqb_spec k0 k); [by subst|]. by rewrite IH.
Qed.

Lemma dict_update_fresh items : forall d,
  NoDup (dict_keys d ++ items.*1) -> dict_update d items = d ++ items.
Proof.
  unfold dict_update, dict_keys.
  induction items as [|[k v] items IH]; intros d Hnd; cbn.
  - by rewrite app_nil_r.
  - cbn in Hnd. apply NoDup_app in Hnd as (Hd & Hdisj & Hitems).
    apply NoDup_cons in Hitems as [Hk Hitems].
    rewrite dict_set_fresh by (intros Hin; apply (Hdisj _ Hin); by left).
    rewrite IH; [by rewrite <- app_assoc|].
    rewrite fmap_app. cbn. rewrite <- app_assoc. cbn.
    apply NoDup_app. split; [done|]. split.
    + intros x Hx. rewrite elem_of_cons. intros [->|Hin]; [|by eapply Hdisj; [|right]].
      apply (Hdisj _ Hx). by left.
    + by apply NoDup_cons.
Qed.

(** X7: when the six default option names are distinct and the caller's
    option names are distinct and differ from them, the result for a
    subcommand other than "init" is the six defaults, in the order [state],
    [target], [var], [var_file], [parallelism], [input] with the values the
    object holds, followed by the caller's options in the caller's order. *)
Theorem get_default_options_order self terraform_command input_options :
  terraform_command ≠ "init" ->
  NoDup ([state; target; var; var_file; parallelism; terraform_input]
         ++ dict_keys input_options) ->
  get_default_options self terraform_command input_options
    = [ (state, of_optional_str (self_state_file_path self));
        (target, VList (VStr <$> self_resource_targets self));
        (var,
          VDict ((fun '(k, v) => (VStr k, VStr v))
                   <$> self_terraform_variables self));
        (var_file, of_optional_str (self_var_definition_file self));
        (parallelism, VInt (self_parallelism self));
        (terraform_input, VBool (self_input self)) ]
      ++ input_options.
Proof.
  intros Hcmd Hnd. unfold get_default_options.
  apply String.eqb_neq in Hcmd. rewrite Hcmd.
  rewrite dict_update_fresh; [done|].
  unfold dict_keys in *. by rewrite fmap_app.
Qed.

End terraform_defaults_further.

Section terraform_composition.
Import terraform_deployment_utils.
Context {models : Models}.
Variable container_str : Value -> string.

(** X8: the command line built from the default options alone, for a
    subcommand other than "init" and distinct default option names: after
    the command's tokens come the state path when there is one, one target
    token per resource target, the Terraform variables only if the name of
    the [var] option contains "backend-config", the variable file when
    there is one, and always the parallelism and the input token. *)
Theorem default_options_command_line self terraform_command command :
  terraform_command ≠ "init" ->
  NoDup [state; target; var; var_file; parallelism; terraform_input] ->
  get_command_list container_str command []
      (get_default_options self terraform_command [])
    = py.split command
      ++ match self_state_file_path self with
         | Some path => ["-" +:+ py.replace "_" "-" state +:+ "=" +:+ path]
         | None => []
         end
      ++ map (fun t => "-" +:+ py.replace "_" "-" target +:+ "=" +:+ t)
           (self_resource_targets self)
      ++ (if py.contains "backend-config" (py.replace "_" "-" var)
          then map (fun '(k, v) => "-backend-config " +:+ k +:+ "=" +:+ v)
                 (self_terraform_variables self)
          else [])
      ++ match self_var_definition_file self with
         | Some file => ["-" +:+ py.replace "_" "-" var_file +:+ "=" +:+ file]
         | None => []
         end
      ++ [ "-" +:+ py.replace "_" "-" parallelism +:+ "="
           +:+ pretty (self_parallelism self);
           "-" +:+ py.replace "_" "-" terraform_input +:+ "="
           +:+ (if self_input self then "true" else "false") ].
Proof.
  intros Hcmd Hnd. unfold get_default_options.
  apply String.eqb_neq in Hcmd. rewrite Hcmd.
  rewrite dict_update_fresh by (by rewrite !app_nil_r).
  rewrite app_nil_l, app_nil_r.
  unfold get_command_list. rewrite app_nil_r. cbn [fold_left].
  rewrite !(add_option_app _ (add_option _ _ _)).
  rewrite (add_option_app _ (py.split command)).
  rewrite <- !app_assoc. f_equal.
  f_equal; [by destruct (self_state_file_path self)|].
  f_equal.
  { cbn. rewrite append_loop. cbn. unfold fmap. rewrite map_map. done. }
  f_equal.
  { cbn. destruct (py.contains _ _); [|done].
    unfold fmap. rewrite map_map. apply map_ext. by intros [k v]. }
  f_equal. by destruct (self_var_definition_file self).
Qed.

End terraform_composition.

Section infra_config_further.
Import infra_config.
Context {types : EntityTypes}.

(** X9: when [post_update_status] returns, the entity had a status and a
    history; the status is unchanged, [status_update_ts] is the clock
    reading, the history has grown by the one entry (status, clock reading)
    at its end, and no other attribute has changed. *)
Theorem post_update_status_records_status now obj obj' :
  post_update_status now obj = Ok obj' ->
  exists s history,
    status obj = Some s /\ status_updates obj = Some history /\
    status obj' = Some s /\ status_update_ts obj' = Some now /\
    last <$> status_updates obj'
      = Some (Some {| su_status := s; su_status_update_ts := now |}) /\
    obj' = setattr
             (set_status_updates
                (history ++ [{| su_status := s;
                                su_status_update_ts := now |}]))
             (setattr (set_status_update_ts now) obj).
Proof.
  unfold post_update_status, append_status_updates.
  destruct obj as [x1 x2 [s|] x4 x5 x6 x7 x8 x9 [history|] x11 x12 x13 x14
                   x15 x16 x17 x18]; cbn; try discriminate.
  intros [= <-]. exists s, history. cbn. rewrite last_snoc. done.
Qed.

(** X10: [post_update_status] fails only for want of [status] or of
    [status_updates], with the [AttributeError] of the first one missing in
    this order; a missing [status_update_ts] never makes it fail, since the
    function assigns it first. *)
Theorem post_update_status_failures now obj :
  (status obj = None ->
     post_update_status now obj = Raise (AttributeError "status")) /\
  (status obj ≠ None -> status_updates obj = None ->
     post_update_status now obj = Raise (AttributeError "status_updates")) /\
  (status obj ≠ None -> status_updates obj ≠ None ->
     exists obj', post_update_status now obj = Ok obj').
Proof.
  unfold post_update_status, append_status_updates.
  destruct obj as [x1 x2 [s|] x4 x5 x6 x7 x8 x9 [history|] x11 x12 x13 x14
                   x15 x16 x17 x18]; cbn; repeat split; try done;
    intros; by eexists.
Qed.

(** X11: [raise_containers_error] never returns: whatever the entity, the
    call raises; it raises the [ValueError] naming both counts when both
    are present, and otherwise the [AttributeError] of the first count that
    is missing. *)
Theorem raise_containers_error_never_returns obj :
  (forall obj', raise_containers_error obj ≠ Ok obj') /\
  (forall pid mpc,
     num_pid_containers obj = Some pid -> num_mpc_containers obj = Some mpc ->
     raise_containers_error obj
       = Raise (ValueError (containers_error_message pid mpc))) /\
  (num_pid_containers obj = None ->
     raise_containers_error obj
       = Raise (AttributeError "num_pid_containers")) /\
  (num_pid_containers obj ≠ None -> num_mpc_containers obj = None ->
     raise_containers_error obj
       = Raise (AttributeError "num_mpc_containers")).
Proof.
  unfold raise_containers_error.
  destruct (num_pid_containers obj) as [pid|],
           (num_mpc_containers obj) as [mpc|]; cbn;
    repeat split; try done; by intros ?? [= <-] [= <-].
Qed.

(** X12: the container-count check guards both fields. For an entity that
    holds both counts, an update of [num_mpc_containers] is reported as
    failed exactly when the new value is below [num_pid_containers], and an
    update of [num_pid_containers] exactly when the new value is above
    [num_mpc_containers]; setting either count equal to the other
    succeeds. *)
Theorem container_updates_checked_on_both_fields now v obj pid mpc :
  num_pid_containers obj = Some pid ->
  num_mpc_containers obj = Some mpc ->
  (set_field now (set_num_mpc_containers v) obj).1
    = (if pid >? v
       then Raise (ValueError (containers_error_message pid v))
       else Ok tt) /\
  (set_field now (set_num_pid_containers v) obj).1
    = (if v >? mpc
       then Raise (ValueError (containers_error_message v mpc))
       else Ok tt).
Proof.
  intros Hpid Hmpc. rewrite !set_field_containers by reflexivity.
  destruct obj; cbn in *; subst. by split; destruct (_ >? _).
Qed.

End infra_config_further.

Section pid_further.
Import pid_utils.
Context {models : Models}.

(** X13: with the protocol chosen by [get_pid_protocol_from_num_shards],
    and a default protocol other than the multikey one, row numbering is
    reported enabled exactly when the caller asked for it and the run is not
    the single-container multikey run. *)
Theorem row_numbers_for_selected_protocol num_pid_containers
    multikey_enabled pid_use_row_numbers :
  DEFAULT_PID_PROTOCOL ≠ UNION_PID_MULTIKEY ->
  pid_should_use_row_numbers pid_use_row_numbers
      (get_pid_protocol_from_num_shards num_pid_containers multikey_enabled)
    = true
  <-> pid_use_row_numbers = true /\
      ¬ (num_pid_containers = 1 /\ multikey_enabled = true).
Proof.
  intros Hdef.
  unfold pid_should_use_row_numbers, get_pid_protocol_from_num_shards.
  destruct (Z.eqb_spec num_pid_containers 1) as [->|Hn],
           multikey_enabled, pid_use_row_numbers; cbn;
    rewrite ?bool_decide_eq_true_2 by done;
    rewrite ?bool_decide_eq_false_2 by done; cbn;
    split; try done; try (intros [_ []]; done);
    try (intros _; split; [done|intros [? ?]; done]).
Qed.

(** X14: with the protocol chosen by [get_pid_protocol_from_num_shards],
    and a default protocol other than the multikey one, more than the one
    identifier column is allowed only for the single-container multikey
    run; every run on another number of containers gets 1. *)
Theorem max_id_columns_for_selected_protocol num_pid_containers
    multikey_enabled :
  DEFAULT_PID_PROTOCOL ≠ UNION_PID_MULTIKEY ->
  get_max_id_column_cnt
      (get_pid_protocol_from_num_shards num_pid_containers multikey_enabled)
    = if (num_pid_containers =? 1) && multikey_enabled
      then DEFAULT_MULTIKEY_PROTOCOL_MAX_COLUMN_COUNT
      else 1.
Proof.
  intros Hdef.
  unfold get_max_id_column_cnt, get_pid_protocol_from_num_shards.
  destruct ((num_pid_containers =? 1) && multikey_enabled).
  - by rewrite bool_decide_eq_true_2.
  - by rewrite bool_decide_eq_false_2.
Qed.

(** X15: a protocol for which [get_max_id_column_cnt] allows a column count
    other than 1 never runs with row numbers, whatever the caller asked. *)
Theorem multi_column_protocol_never_uses_row_numbers pid_use_row_numbers
    pid_protocol :
  get_max_id_column_cnt pid_protocol ≠ 1 ->
  pid_should_use_row_numbers pid_use_row_numbers pid_protocol = false.
Proof.
  unfold get_max_id_column_cnt, pid_should_use_row_numbers.
  destruct (decide (pid_protocol = UNION_PID_MULTIKEY)) as [->|Hne].
  - intros _. rewrite bool_decide_eq_true_2 by done.
    by destruct pid_use_row_numbers.
  - rewrite bool_decide_eq_false_2 by done. done.
Qed.

End pid_further.

Section product_config_further.
Import product_config.

(** X16: the nine members of [AttributionRule] carry nine different
    values, each the lower-case form of the member's name, so looking a
    member's value up gives the member back, and a value that is found is
    the value of the member found. *)
Theorem AttributionRule_value_round_trip :
  (forall r, AttributionRule_of_value (AttributionRule_value r) = Some r) /\
  (forall value r,
     AttributionRule_of_value value = Some r ->
     AttributionRule_value r = value) /\
  (forall r1 r2,
     AttributionRule_value r1 = AttributionRule_value r2 -> r1 = r2) /\
  (forall r, AttributionRule_value r = lower (AttributionRule_name r)).
Proof.
  assert (Hrt : forall r,
            AttributionRule_of_value (AttributionRule_value r) = Some r)
    by (intros []; reflexivity).
  split; [exact Hrt|]. split; [|split].
  - intros value r Hfind. unfold AttributionRule_of_value in Hfind.
    apply find_some in Hfind as [_ Heq]. by apply String.eqb_eq in Heq.
  - intros r1 r2 Heq. pose proof (Hrt r1) as H1. rewrite Heq, Hrt in H1.
    by injection H1.
  - intros []; reflexivity.
Qed.

End product_config_further.

(** * Closed instances of the further properties *)

Section terraform_further_instances.
Import terraform_deployment_utils.

Lemma option_tokens_start_with_dash_witness :
  exists rest, "-var-file=a.tfvars" = "-" +:+ rest.
Proof.
  apply (option_tokens_start_with_dash example_container_str
           [("input", VBool false); ("var_file", VStr "a.tfvars")]).
  vm_compute. do 2 constructor.
Defined.

Lemma command_tokens_nonempty_no_whitespace_witness :
  "apply" ≠ EmptyString /\
  Forall (fun c => py.isspace c = false)
    (String.list_ascii_of_string "apply").
Proof.
  apply (command_tokens_nonempty_no_whitespace example_container_str
           "  terraform   apply ").
  vm_compute. do 2 constructor.
Defined.

Lemma input_options_take_precedence_witness :
  ("parallelism", VInt 4)
    ∈ @get_default_options example_models
        (__init__ None None None None None) "apply"
        [("parallelism", VInt 4)].
Proof.
  apply (@input_options_take_precedence example_models).
  - apply NoDup_singleton.
  - constructor.
  - left. discriminate.
Defined.

Lemma get_default_options_order_witness :
  @get_default_options example_models
      (__init__ (Some "tf.state") None (Some 4) (Some ["a"; "b"]) None)
      "apply" [("backend_config", VDict [(VStr "bucket", VStr "b")])]
    = [ ("state", of_optional_str (Some "tf.state"));
        ("target", VList (VStr <$> ["a"; "b"]));
        ("var", VDict ((fun '(k, v) => (VStr k, VStr v)) <$> []));
        ("var_file", of_optional_str None);
        ("parallelism", VInt 4);
        ("input", VBool false) ]
      ++ [("backend_config", VDict [(VStr "bucket", VStr "b")])].
Proof.
  apply (@get_default_options_order example_models
           (__init__ (Some "tf.state") None (Some 4) (Some ["a"; "b"]) None)
           "apply" [("backend_config", VDict [(VStr "bucket", VStr "b")])]).
  - discriminate.
  - apply (bool_decide_unpack _). vm_compute. exact I.
Defined.

Lemma default_options_command_line_witness :
  get_command_list example_container_str "terraform apply" []
      (@get_default_options example_models
         (__init__ (Some "tf.state") (Some [("region", "us")]) None
            (Some ["a"; "b"]) None)
         "apply" [])
    = [ "terraform"; "apply"; "-state=tf.state"; "-target=a"; "-target=b";
        "-parallelism=10"; "-input=false" ].
Proof.
  rewrite (@default_options_command_line example_models
             example_container_str
             (__init__ (Some "tf.state") (Some [("region", "us")]) None
                (Some ["a"; "b"]) None)
             "apply" "terraform apply").
  - reflexivity.
  - discriminate.
  - apply (bool_decide_unpack _). vm_compute. exact I.
Defined.

End terraform_further_instances.

Section infra_config_further_instances.
Import infra_config.

Lemma post_update_status_records_status_witness :
  exists s history,
    status (example_entity 2 5 example_history) = Some s /\
    status_updates (example_entity 2 5 example_history) = Some history /\
    status (setattr
              (set_status_updates
                 (example_history
                  ++ [@Build_StatusUpdate example_types "CREATED" 42]))
              (setattr (set_status_update_ts 42)
                 (example_entity 2 5 example_history))) = Some s /\
    status_update_ts
        (setattr
           (set_status_updates
              (example_history
               ++ [@Build_StatusUpdate example_types "CREATED" 42]))
           (setattr (set_status_update_ts 42)
              (example_entity 2 5 example_history))) = Some 42 /\
    last <$> status_updates
               (setattr
                  (set_status_updates
                     (example_history
                      ++ [@Build_StatusUpdate example_types "CREATED" 42]))
                  (setattr (set_status_update_ts 42)
                     (example_entity 2 5 example_history)))
      = Some (Some {| su_status := s; su_status_update_ts := 42 |}) /\
    setattr
        (set_status_updates
           (example_history
            ++ [@Build_StatusUpdate example_types "CREATED" 42]))
        (setattr (set_status_update_ts 42)
           (example_entity 2 5 example_history))
      = setattr
          (set_status_updates
             (history ++ [{| su_status := s; su_status_update_ts := 42 |}]))
          (setattr (set_status_update_ts 42)
             (example_entity 2 5 example_history)).
Proof.
  apply (post_update_status_records_status 42
           (example_entity 2 5 example_history)).
  reflexivity.
Defined.

Lemma container_updates_checked_on_both_fields_witness :
  (set_field 200 (set_num_mpc_containers 1) (example_entity 2 5 [])).1
    = (if 2 >? 1
       then Raise (ValueError (containers_error_message 2 1))
       else Ok tt) /\
  (set_field 200 (set_num_pid_containers 1) (example_entity 2 5 [])).1
    = (if 1 >? 5
       then Raise (ValueError (containers_error_message 1 5))
       else Ok tt).
Proof.
  apply (container_updates_checked_on_both_fields 200 1
           (example_entity 2 5 []) 2 5); reflexivity.
Defined.

End infra_config_further_instances.

Section pid_further_instances.
Import pid_utils.

Lemma row_numbers_for_selected_protocol_witness :
  @pid_should_use_row_numbers example_pid_models true
      (@get_pid_protocol_from_num_shards example_pid_models 4 true)
    = true
  <-> true = true /\ ¬ (4 = 1 /\ true = true).
Proof.
  apply (@row_numbers_for_selected_protocol example_pid_models 4 true true).
  discriminate.
Defined.

Lemma max_id_columns_for_selected_protocol_witness :
  @get_max_id_column_cnt example_pid_models
      (@get_pid_protocol_from_num_shards example_pid_models 1 true)
    = if (1 =? 1) && true
      then @DEFAULT_MULTIKEY_PROTOCOL_MAX_COLUMN_COUNT example_pid_models
      else 1.
Proof.
  apply (@max_id_columns_for_selected_protocol example_pid_models 1 true).
  discriminate.
Defined.

Lemma multi_column_protocol_never_uses_row_numbers_witness :
  @pid_should_use_row_numbers example_pid_models true
      (@UNION_PID_MULTIKEY example_pid_models) = false.
Proof.
  apply (@multi_column_protocol_never_uses_row_numbers example_pid_models).
  vm_compute. discriminate.
Defined.

End pid_further_instances.
